(** * English to Roman Urdu translator (main2.py): model and properties

    The program is a Streamlit page around a pretrained mBART model.  Its own
    code is orchestration: [load_model], [translate], the memoised
    [get_translator] and the script [main], which Streamlit re-executes from
    top to bottom on every user interaction.

    Python is embedded as a small monad [Py]: a computation reads and writes
    a store (the heap of translator objects and Streamlit's resource cache),
    emits the calls it makes to Streamlit and to the transformers library as
    a list of events, and either returns a value or raises an exception. *)

From Stdlib Require Import QArith.QArith_base Strings.Ascii Strings.String.
From stdpp Require Import base numbers option list strings gmap.

(** ** Python values used by the program *)

(** An instance of Python's class [Exception]: its class name and [str(e)].
    This is the class that both [except Exception] clauses of the program
    name. *)
Record Exception := mkException { exc_class : string; exc_str : string }.

Definition str (e : Exception) : string := exc_str e.

(** A tensor of token ids or mask bits: one row per sequence of the batch. *)
Abbreviation Tensor := (list (list Z)).

(** The [BatchEncoding] returned by the tokenizer, used as a dict. *)
Abbreviation BatchEncoding := (gmap string Tensor).

Definition quote (k : string) : string := "'" +:+ k +:+ "'".

Definition KeyError (k : string) : Exception := mkException "KeyError" (quote k).

Definition IndexError : Exception :=
  mkException "IndexError" "list index out of range".

Definition AttributeError (attr : string) : Exception :=
  mkException "AttributeError"
    ("'EnglishToRomanUrduTranslator' object has no attribute " +:+ quote attr).

(** Truth value of a [str] and of an [Optional[str]] in an [if]. *)
Definition truthy (s : string) : bool :=
  match s with EmptyString => false | String _ _ => true end.

Definition truthy_opt (o : option string) : bool :=
  match o with None => false | Some s => truthy s end.

(** [f"{o}"] for an [Optional[str]]. *)
Definition format (o : option string) : string :=
  match o with None => "None" | Some s => s end.

(** ** The transformers library *)

(** Keyword arguments of the tokenizer call. *)
Record TokenizerArgs := mkTokenizerArgs {
  return_tensors : string;
  padding : bool;
  truncation : bool;
  tok_max_length : Z
}.

(** Keyword arguments of [generate] (besides [attention_mask]). *)
Record GenerateArgs := mkGenerateArgs {
  gen_max_length : Z;
  num_beams : Z;
  length_penalty : Q;
  early_stopping : bool;
  forced_bos_token_id : Z
}.

(** A tokenizer object: the part the library owns ([Vocab]), and the
    attributes the program reads or assigns. *)
Record Tokenizer (Vocab : Type) := mkTokenizer {
  vocab : Vocab;
  src_lang : string;
  tgt_lang : string;
  lang_code_to_id : gmap string Z
}.
Arguments mkTokenizer {Vocab}.
Arguments vocab {Vocab}.
Arguments src_lang {Vocab}.
Arguments tgt_lang {Vocab}.
Arguments lang_code_to_id {Vocab}.

Inductive Outcome (A : Type) : Type :=
| Return (a : A)
| Raise (e : Exception).
Arguments Return {A}.
Arguments Raise {A}.

(** What the program calls in transformers.  [Env] is the outside world at
    the time of a load (network, local model cache); [Weights] is a loaded
    generation model.  Inference is a function of the loaded objects and of
    the arguments. *)
Class Transformers (Env Vocab Weights : Type) := {
  MBartTokenizer_from_pretrained : Env → string → Outcome (Tokenizer Vocab);
  MBartForConditionalGeneration_from_pretrained : Env → string → Outcome Weights;
  tokenizer_call : Tokenizer Vocab → string → TokenizerArgs → Outcome BatchEncoding;
  model_generate : Weights → Tensor → Tensor → GenerateArgs → Outcome Tensor;
  batch_decode : Tokenizer Vocab → Tensor → bool → Outcome (list string)
}.

(** ** Events: the calls a computation makes, in order *)

(** Streamlit containers entered by a [with] block. *)
Inductive Container :=
| Sidebar
| Column (i : nat)
| Spinner (text : string).

Inductive Event :=
(* streamlit *)
| St_set_page_config (page_title page_icon layout : string)
| St_markdown (body : string) (unsafe_allow_html : bool)
| St_title (body : string)
| St_header (body : string)
| St_subheader (body : string)
| St_slider (label : string) (min_value max_value value : Z) (help : string)
| St_columns (n : nat)
| St_text_area (label : string) (height : Z) (placeholder key label_visibility : string)
| St_empty
| Placeholder_markdown (body : string) (unsafe_allow_html : bool)
| St_button (label : string) (use_container_width : bool) (key : string)
| St_error (body : string)
| St_warning (body : string)
| St_success (body : string)
| Enter (c : Container)
| Exit (c : Container)
(* transformers *)
| Tokenizer_from_pretrained (name : string)
| Model_from_pretrained (name : string)
| Tokenizer_call (text : string) (args : TokenizerArgs)
| Model_generate (input_ids attention_mask : Tensor) (args : GenerateArgs)
| Batch_decode (sequences : Tensor) (skip_special_tokens : bool)
(* entry of a method of the translator object [self] *)
| Call_load_model (self : nat)
| Call_translate (self : nat) (text : string) (max_length : Z).

(** ** The monad *)

Module Py.
Section Monad.
Context {S : Type}.

Definition t (A : Type) : Type := S → Outcome A * S * list Event.

Definition ret {A} (a : A) : t A := fun s => (Return a, s, []).

Definition raise {A} (e : Exception) : t A := fun s => (Raise e, s, []).

Definition bind {A B} (m : t A) (k : A → t B) : t B := fun s =>
  match m s with
  | (Return a, s1, evs1) =>
      match k a s1 with (o, s2, evs2) => (o, s2, evs1 ++ evs2) end
  | (Raise e, s1, evs1) => (Raise e, s1, evs1)
  end.

(** [try: m except Exception as e: h e] *)
Definition try_except {A} (m : t A) (h : Exception → t A) : t A := fun s =>
  match m s with
  | (Return a, s1, evs1) => (Return a, s1, evs1)
  | (Raise e, s1, evs1) =>
      match h e s1 with (o, s2, evs2) => (o, s2, evs1 ++ evs2) end
  end.

(** [with c: m]: the block is left on return and on exception alike. *)
Definition with_ {A} (c : Container) (m : t A) : t A := fun s =>
  match m s with (o, s1, evs1) => (o, s1, Enter c :: evs1 ++ [Exit c]) end.

Definition emit (ev : Event) : t unit := fun s => (Return tt, s, [ev]).

(** A call into a library: the call is recorded, then it returns or
    raises. *)
Definition call {A} (ev : Event) (o : Outcome A) : t A := fun s => (o, s, [ev]).

Definition get : t S := fun s => (Return s, s, []).

Definition modify (f : S → S) : t unit := fun s => (Return tt, f s, []).

(** [d[k]] on a dict. *)
Definition getitem {V} (d : gmap string V) (k : string) : t V :=
  match d !! k with
  | Some v => ret v
  | None => raise (KeyError k)
  end.

(** [l[i]] on a list, for an index [i >= 0]. *)
Definition list_getitem {V} (l : list V) (i : nat) : t V :=
  match l !! i with
  | Some v => ret v
  | None => raise IndexError
  end.
End Monad.
End Py.

Notation "x <- m ;; k" := (Py.bind m (fun x => k))
  (at level 100, m at next level, right associativity).
Notation "m ;; k" := (Py.bind m (fun _ => k))
  (at level 100, right associativity).

(** ** String constants of the script *)

Definition dq : string := String "034"%char EmptyString.

Definition css : string := "
        <style>
        .stApp {
            max-width: 1200px;
            margin: 0 auto;
        }
        .translation-box {
            border: 1px solid #ddd;
            border-radius: 5px;
            padding: 10px;
            background-color: #f9f9f9;
        }
        .stButton>button {
            width: 100%;
        }
        </style>
    ".

Definition about : string := "
    ### About this Translator
    
    This translator uses the mBART-50 Many-to-Many Multilingual Machine Translation model with:
    
    - **Beam Search**: Uses 4 beams for optimal translation quality
    - **Length Control**: Adjustable maximum length via slider
    - **Language Codes**: Specifically configured for English to Urdu translation
    - **Error Handling**: Robust error management and user feedback
    
    ⚠️ Note: For best results, use clear and concise English text.
    ".

Definition translation_box (translation : string) : string :=
  "<div class=" +:+ dq +:+ "translation-box" +:+ dq +:+ ">" +:+ translation +:+ "</div>".

(** ** The program *)

Section Program.
Context {Env Vocab Weights : Type} `{!Transformers Env Vocab Weights}.

(** The attributes of an [EnglishToRomanUrduTranslator] object; [None] is
    an attribute that has not been assigned yet. *)
Record Translator := mkTranslator {
  model_name : option string;
  device : option string;
  tokenizer : option (Tokenizer Vocab);
  model : option Weights
}.

Definition empty_object : Translator := mkTranslator None None None None.

Definition set_model_name (v : string) (o : Translator) : Translator :=
  mkTranslator (Some v) (device o) (tokenizer o) (model o).
Definition set_device (v : string) (o : Translator) : Translator :=
  mkTranslator (model_name o) (Some v) (tokenizer o) (model o).
Definition set_tokenizer (v : Tokenizer Vocab) (o : Translator) : Translator :=
  mkTranslator (model_name o) (device o) (Some v) (model o).
Definition set_model (v : Weights) (o : Translator) : Translator :=
  mkTranslator (model_name o) (device o) (tokenizer o) (Some v).

Definition set_src_lang (v : string) (tk : Tokenizer Vocab) : Tokenizer Vocab :=
  mkTokenizer (vocab tk) v (tgt_lang tk) (lang_code_to_id tk).
Definition set_tgt_lang (v : string) (tk : Tokenizer Vocab) : Tokenizer Vocab :=
  mkTokenizer (vocab tk) (src_lang tk) v (lang_code_to_id tk).

(** The store: translator objects by address, and the entry that
    [st.cache_resource] keeps for [get_translator] (which has no
    arguments, hence one entry).  The store outlives a run of the script. *)
Record Store := mkStore {
  heap : list Translator;
  resource_cache : option nat
}.

Definition initial_store : Store := mkStore [] None.

Abbreviation Py := (@Py.t Store).

Definition new_object : Py nat := fun s =>
  (Return (length (heap s)),
   mkStore (heap s ++ [empty_object]) (resource_cache s), []).

Definition getattr {A} (self : nat) (attr : string) (proj : Translator → option A)
  : Py A := fun s =>
  match heap s !! self ≫= proj with
  | Some v => (Return v, s, [])
  | None => (Raise (AttributeError attr), s, [])
  end.

Definition setattr (self : nat) (f : Translator → Translator) : Py unit :=
  Py.modify (fun s => mkStore (alter f self (heap s)) (resource_cache s)).

(** *** class EnglishToRomanUrduTranslator *)

Definition load_model (env : Env) (self : nat) : Py unit :=
  Py.emit (Call_load_model self) ;;
  Py.try_except
    (name <- getattr self "model_name" model_name ;;
     tk <- Py.call (Tokenizer_from_pretrained name)
                   (MBartTokenizer_from_pretrained env name) ;;
     setattr self (set_tokenizer tk) ;;
     name <- getattr self "model_name" model_name ;;
     m <- Py.call (Model_from_pretrained name)
                  (MBartForConditionalGeneration_from_pretrained env name) ;;
     setattr self (set_model m) ;;
     tk <- getattr self "tokenizer" tokenizer ;;
     setattr self (set_tokenizer (set_src_lang "en_XX" tk)) ;;
     tk <- getattr self "tokenizer" tokenizer ;;
     setattr self (set_tokenizer (set_tgt_lang "ur_PK" tk)))
    (fun e =>
       Py.emit (St_error ("Error loading model: " +:+ str e)) ;;
       Py.raise e).

Definition __init__ (env : Env) (self : nat) : Py unit :=
  setattr self (set_model_name "facebook/mbart-large-50-many-to-many-mmt") ;;
  setattr self (set_device "cpu") ;;
  load_model env self.

Definition EnglishToRomanUrduTranslator (env : Env) : Py nat :=
  self <- new_object ;;
  __init__ env self ;;
  Py.ret self.

Definition translate_args (max_length : Z) : TokenizerArgs :=
  mkTokenizerArgs "pt" true true max_length.

Definition generate_args (max_length bos : Z) : GenerateArgs :=
  mkGenerateArgs max_length 4 1 true bos.

(** The [try] block of [translate]. *)
Definition translate_try (self : nat) (text : string) (max_length : Z)
  : Py (option string) :=
  tk <- getattr self "tokenizer" tokenizer ;;
  encoded <- Py.call (Tokenizer_call text (translate_args max_length))
                     (tokenizer_call tk text (translate_args max_length)) ;;
  m <- getattr self "model" model ;;
  input_ids <- Py.getitem encoded "input_ids" ;;
  attention_mask <- Py.getitem encoded "attention_mask" ;;
  tk <- getattr self "tokenizer" tokenizer ;;
  bos <- Py.getitem (lang_code_to_id tk) "ur_PK" ;;
  generated_tokens <-
    Py.call (Model_generate input_ids attention_mask (generate_args max_length bos))
            (model_generate m input_ids attention_mask (generate_args max_length bos)) ;;
  tk <- getattr self "tokenizer" tokenizer ;;
  decoded <- Py.call (Batch_decode generated_tokens true)
                     (batch_decode tk generated_tokens true) ;;
  translated_text <- Py.list_getitem decoded 0 ;;
  Py.ret (Some translated_text).

Definition translate (self : nat) (text : string) (max_length : Z)
  : Py (option string) :=
  Py.emit (Call_translate self text max_length) ;;
  Py.try_except
    (translate_try self text max_length)
    (fun e =>
       Py.emit (St_error ("Translation error: " +:+ str e)) ;;
       Py.ret None).

(** *** Streamlit, as the script uses it *)

(** What the browser reports to one run of the script: the outside world
    at that time, how far the slider handle was dragged above its minimum
    ([None]: never touched), the content of the text area, and whether the
    run was triggered by the translate button. *)
Record RunInput := mkRunInput {
  env : Env;
  slider_position : option nat;
  text_area_value : string;
  button_clicked : bool
}.

(** [st.slider]: the default until the handle is moved, then a value
    between the two ends of the track. *)
Definition st_slider (label : string) (min_value max_value value : Z)
    (help : string) (position : option nat) : Py Z :=
  Py.emit (St_slider label min_value max_value value help) ;;
  Py.ret (match position with
          | None => value
          | Some k => Z.min (min_value + Z.of_nat k) max_value
          end).

Definition st_text_area (label : string) (height : Z)
    (placeholder key label_visibility content : string) : Py string :=
  Py.emit (St_text_area label height placeholder key label_visibility) ;;
  Py.ret content.

Definition st_button (label : string) (use_container_width : bool)
    (key : string) (clicked : bool) : Py bool :=
  Py.emit (St_button label use_container_width key) ;;
  Py.ret clicked.

Definition st_columns (n : nat) : Py (list Container) :=
  Py.emit (St_columns n) ;;
  Py.ret (map Column (seq 0 n)).

(** [@st.cache_resource] on a function without arguments: a hit returns
    the stored object without running the function; a miss runs it and
    stores what it returns; an exception passes through and nothing is
    stored. *)
Definition st_cache_resource (f : Py nat) : Py nat :=
  s <- Py.get ;;
  match resource_cache s with
  | Some obj => Py.ret obj
  | None =>
      obj <- f ;;
      Py.modify (fun s' => mkStore (heap s') (Some obj)) ;;
      Py.ret obj
  end.

(** *** main *)

Definition get_translator (env : Env) : Py nat :=
  EnglishToRomanUrduTranslator env.

(** The body of [if st.button(...)]. *)
Definition on_translate_button (translator : nat) (input_text : string)
    (max_length : Z) : Py unit :=
  if truthy input_text then
    Py.with_ (Spinner "Translating...")
      (translation <- translate translator input_text max_length ;;
       if truthy_opt translation then
         Py.emit (Placeholder_markdown
                    (translation_box (format translation)) true) ;;
         Py.emit (St_success "Translation completed! ✨")
       else Py.ret tt)
  else
    Py.emit (St_warning "⚠️ Please enter some text to translate").

Definition main (inp : RunInput) : Py unit :=
  Py.emit (St_set_page_config "English to Roman Urdu Translator" "🔄" "wide") ;;
  Py.emit (St_markdown css true) ;;
  Py.emit (St_title "🔄 English to Roman Urdu Translator") ;;
  Py.emit (St_markdown "#### Using Neural Machine Translation" false) ;;
  translator <- st_cache_resource (get_translator (env inp)) ;;
  max_length <-
    Py.with_ Sidebar
      (Py.emit (St_header "Translation Settings") ;;
       st_slider "Maximum Length" 50 250 128
                 "Maximum length of the translated text"
                 (slider_position inp)) ;;
  cols <- st_columns 2 ;;
  col1 <- Py.list_getitem cols 0 ;;
  col2 <- Py.list_getitem cols 1 ;;
  input_text <-
    Py.with_ col1
      (Py.emit (St_subheader "English Input") ;;
       st_text_area "Enter English text" 200
                    "Enter your English text here..." "input" "collapsed"
                    (text_area_value inp)) ;;
  Py.with_ col2
    (Py.emit (St_subheader "Roman Urdu Output") ;;
     Py.emit St_empty) ;;
  clicked <- st_button "🔄 Translate Text" true "translate_button"
                       (button_clicked inp) ;;
  (if clicked then on_translate_button translator input_text max_length
   else Py.ret tt) ;;
  Py.emit (St_markdown "---" false) ;;
  Py.emit (St_markdown about false).

(** *** The process: one run of [main] per interaction *)

Record Run := mkRun {
  run_outcome : Outcome unit;
  run_store : Store;
  run_events : list Event
}.

(** An exception that leaves [main] ends that run only: Streamlit shows
    it and the next interaction runs the script again on the same store. *)
Fixpoint run_process (inputs : list RunInput) (s : Store) : list Run :=
  match inputs with
  | [] => []
  | inp :: rest =>
      match main inp s with
      | (o, s', evs) => mkRun o s' evs :: run_process rest s'
      end
  end.
End Program.

Arguments Translator : clear implicits.
Arguments Store : clear implicits.
Arguments RunInput : clear implicits.
Arguments Run : clear implicits.

(** ** Observations on a list of events *)

Definition translate_calls (evs : list Event) : list (nat * string * Z) :=
  omap (fun ev => match ev with
                  | Call_translate self text ml => Some (self, text, ml)
                  | _ => None
                  end) evs.

Definition generate_calls (evs : list Event) : list GenerateArgs :=
  omap (fun ev => match ev with
                  | Model_generate _ _ args => Some args
                  | _ => None
                  end) evs.

Definition loads (evs : list Event) : list nat :=
  omap (fun ev => match ev with
                  | Call_load_model self => Some self
                  | _ => None
                  end) evs.

Definition rendered (evs : list Event) : list string :=
  omap (fun ev => match ev with
                  | Placeholder_markdown body _ => Some body
                  | _ => None
                  end) evs.

Definition successes (evs : list Event) : list string :=
  omap (fun ev => match ev with St_success body => Some body | _ => None end) evs.

Definition warnings (evs : list Event) : list string :=
  omap (fun ev => match ev with St_warning body => Some body | _ => None end) evs.

Definition errors (evs : list Event) : list string :=
  omap (fun ev => match ev with St_error body => Some body | _ => None end) evs.


(** The events that [translate] can emit. *)
Definition of_translate (ev : Event) : bool :=
  match ev with
  | Call_translate _ _ _ | Tokenizer_call _ _ | Model_generate _ _ _
  | Batch_decode _ _ | St_error _ => true
  | _ => false
  end.

Definition of_library (ev : Event) : bool :=
  match ev with
  | Tokenizer_call _ _ | Model_generate _ _ _ | Batch_decode _ _ => true
  | _ => false
  end.

(** The events that the body of [if st.button(...)] can emit. *)
Definition of_button (ev : Event) : bool :=
  match ev with
  | Enter (Spinner _) | Exit (Spinner _) | Placeholder_markdown _ _
  | St_success _ | St_warning _ => true
  | _ => of_translate ev
  end.

(** ** Notions used in the statements *)

Section Notions.
Context {Env Vocab Weights : Type} `{!Transformers Env Vocab Weights}.

Definition the_model_name : string := "facebook/mbart-large-50-many-to-many-mmt".

(** The contract of [generate] for its [max_length] argument: no
    generated sequence is longer. *)
Definition generate_respects_max_length : Prop :=
  ∀ (m : Weights) ids mask args toks,
    model_generate m ids mask args = Return toks →
    Forall (fun row : list Z => (Z.of_nat (length row) ≤ gen_max_length args)%Z)
           toks.

(** The three library steps of [translate], by the event that records
    each. *)
Inductive Step := Tokenize | Generate | Decode.

Definition steps (evs : list Event) : list Step :=
  omap (fun ev => match ev with
                  | Tokenizer_call _ _ => Some Tokenize
                  | Model_generate _ _ _ => Some Generate
                  | Batch_decode _ _ => Some Decode
                  | _ => None
                  end) evs.

(** The parameters that [translate text max_length] fixes for a step. *)
Definition step_parameters (text : string) (max_length : Z) (ev : Event) : Prop :=
  match ev with
  | Tokenizer_call t args =>
      t = text ∧ args = mkTokenizerArgs "pt" true true max_length
  | Model_generate _ _ args =>
      gen_max_length args = max_length ∧ num_beams args = 4%Z
      ∧ length_penalty args = 1%Q ∧ early_stopping args = true
  | Batch_decode _ skip => skip = true
  | _ => True
  end.

(** Loading fails with [e] in the world [env]: the tokenizer cannot be
    loaded, or it can and the model cannot. *)
Definition load_fails (env : Env) (e : Exception) : Prop :=
  MBartTokenizer_from_pretrained env the_model_name = Raise e
  ∨ (∃ tk, MBartTokenizer_from_pretrained env the_model_name = Return tk
           ∧ MBartForConditionalGeneration_from_pretrained env the_model_name
             = Raise e).

(** The object that a successful load builds. *)
Definition loaded_object (tk : Tokenizer Vocab) (m : Weights)
  : Translator Vocab Weights :=
  mkTranslator (Some the_model_name) (Some "cpu")
    (Some (mkTokenizer (vocab tk) "en_XX" "ur_PK" (lang_code_to_id tk)))
    (Some m).

(** The four ways in which a run obtains, or fails to obtain, the
    translator from [get_translator] behind [st.cache_resource]. *)
Inductive fetch (env : Env) s
  : Outcome nat → Store Vocab Weights → list Event → Prop :=
| fetch_hit l :
    resource_cache s = Some l →
    fetch env s (Return l) s []
| fetch_load tk m :
    resource_cache s = None →
    MBartTokenizer_from_pretrained env the_model_name = Return tk →
    MBartForConditionalGeneration_from_pretrained env the_model_name = Return m →
    fetch env s (Return (length (heap s)))
      (mkStore (heap s ++ [loaded_object tk m]) (Some (length (heap s))))
      [Call_load_model (length (heap s));
       Tokenizer_from_pretrained the_model_name;
       Model_from_pretrained the_model_name]
| fetch_no_tokenizer e :
    resource_cache s = None →
    MBartTokenizer_from_pretrained env the_model_name = Raise e →
    fetch env s (Raise e)
      (mkStore (heap s ++ [mkTranslator (Some the_model_name) (Some "cpu")
                             None None]) None)
      [Call_load_model (length (heap s));
       Tokenizer_from_pretrained the_model_name;
       St_error ("Error loading model: " +:+ str e)]
| fetch_no_model tk e :
    resource_cache s = None →
    MBartTokenizer_from_pretrained env the_model_name = Return tk →
    MBartForConditionalGeneration_from_pretrained env the_model_name = Raise e →
    fetch env s (Raise e)
      (mkStore (heap s ++ [mkTranslator (Some the_model_name) (Some "cpu")
                             (Some tk) None]) None)
      [Call_load_model (length (heap s));
       Tokenizer_from_pretrained the_model_name;
       Model_from_pretrained the_model_name;
       St_error ("Error loading model: " +:+ str e)].

Definition page_top : list Event :=
  [St_set_page_config "English to Roman Urdu Translator" "🔄" "wide";
   St_markdown css true;
   St_title "🔄 English to Roman Urdu Translator";
   St_markdown "#### Using Neural Machine Translation" false].

Definition page_controls : list Event :=
  [Enter Sidebar; St_header "Translation Settings";
   St_slider "Maximum Length" 50 250 128 "Maximum length of the translated text";
   Exit Sidebar; St_columns 2;
   Enter (Column 0); St_subheader "English Input";
   St_text_area "Enter English text" 200 "Enter your English text here..."
                "input" "collapsed";
   Exit (Column 0);
   Enter (Column 1); St_subheader "Roman Urdu Output"; St_empty;
   Exit (Column 1);
   St_button "🔄 Translate Text" true "translate_button"].

Definition page_bottom : list Event :=
  [St_markdown "---" false; St_markdown about false].

(** The value of the slider of [main]. *)
Definition slider_value (position : option nat) : Z :=
  match position with
  | None => 128
  | Some k => Z.min (50 + Z.of_nat k) 250
  end.

(** What the body of [if st.button(...)] emits. *)
Definition button_events (inp : RunInput Env) (l : nat) s : list Event :=
  if button_clicked inp then
    if truthy (text_area_value inp) then
      let r := translate l (text_area_value inp)
                         (slider_value (slider_position inp)) s in
      Enter (Spinner "Translating...")
        :: r.2
        ++ match r.1.1 with
           | Return (Some t) =>
               if truthy t
               then [Placeholder_markdown (translation_box t) true;
                     St_success "Translation completed! ✨"]
               else []
           | _ => []
           end
        ++ [Exit (Spinner "Translating...")]
    else [St_warning "⚠️ Please enter some text to translate"]
  else [].

(** What the output panel and the success indicator show for the result
    [r] of [translate]. *)
Definition shown (r : Outcome (option string)) : list string * list string :=
  match r with
  | Return (Some t) =>
      if truthy t
      then ([translation_box t], ["Translation completed! ✨"])
      else ([], [])
  | _ => ([], [])
  end.

(** The number of loads that a run carried out to the end. *)
Definition completed_loads (r : Run Vocab Weights) : nat :=
  match run_outcome r with
  | Return _ => length (loads (run_events r))
  | Raise _ => 0
  end.

End Notions.

Section Reads.
Context {S : Type}.

(** [m] never changes the store and emits only events accepted by [P]. *)
Definition reads (P : Event → bool) {A} (m : @Py.t S A) : Prop :=
  ∀ s, (m s).1.2 = s ∧ forallb P (m s).2 = true.

End Reads.

(** ** A small instance of the library

    A stand-in for transformers that can be run: tokens are character codes,
    the language markers are the two ids below, and the hub either is
    offline or serves one of two models: [Echo] repeats its input after the
    forced first token, [Silent] generates the forced first token only. *)
Module Toy.
Inductive Weights := Echo | Silent.
Inductive Hub := Offline | Serving (w : Weights).

Definition lang_codes : gmap string Z :=
  {[ "en_XX" := 250004%Z; "ur_PK" := 250047%Z ]}.

Definition is_special (id : Z) : bool := (250000 <=? id)%Z.

Definition encode (text : string) : list Z :=
  map (fun c => Z.of_nat (nat_of_ascii c)) (list_ascii_of_string text).

Definition decode (ids : list Z) : string :=
  string_of_list_ascii (map (fun id => ascii_of_nat (Z.to_nat id)) ids).

Definition OSError : Exception :=
  mkException "OSError" "cannot reach the model hub".

Definition ValueError (msg : string) : Exception :=
  mkException "ValueError" msg.

Definition tok_from_pretrained (hub : Hub) (name : string)
  : Outcome (Tokenizer unit) :=
  match hub with
  | Offline => Raise OSError
  | Serving _ => Return (mkTokenizer tt "en_XX" "en_XX" lang_codes)
  end.

Definition model_from_pretrained (hub : Hub) (name : string) : Outcome Weights :=
  match hub with
  | Offline => Raise OSError
  | Serving w => Return w
  end.

Definition tok_call (tk : Tokenizer unit) (text : string) (args : TokenizerArgs)
  : Outcome BatchEncoding :=
  let ids := encode text in
  let ids := if truncation args then take (Z.to_nat (tok_max_length args)) ids
             else ids in
  Return {[ "input_ids" := [ids];
            "attention_mask" := [map (fun _ => 1%Z) ids] ]}.

Definition generate (w : Weights) (input_ids attention_mask : Tensor)
    (args : GenerateArgs) : Outcome Tensor :=
  if (gen_max_length args <? 1)%Z then Raise (ValueError "max_length < 1")
  else
    match input_ids with
    | [] | [] :: _ => Raise (ValueError "empty input_ids")
    | row :: _ =>
        let out := match w with
                   | Echo => forced_bos_token_id args :: row
                   | Silent => [forced_bos_token_id args]
                   end in
        Return [take (Z.to_nat (gen_max_length args)) out]
    end.

Definition decode_batch (tk : Tokenizer unit) (sequences : Tensor)
    (skip_special_tokens : bool) : Outcome (list string) :=
  Return (map (fun ids =>
                 decode (if skip_special_tokens
                         then filter (fun id => is_special id = false) ids
                         else ids))
              sequences).

#[export] Instance lib : Transformers Hub unit Weights := {
  MBartTokenizer_from_pretrained := tok_from_pretrained;
  MBartForConditionalGeneration_from_pretrained := model_from_pretrained;
  tokenizer_call := tok_call;
  model_generate := generate;
  batch_decode := decode_batch
}.

(** The store once the translator has been built from the hub serving
    [w]. *)
Definition loaded (w : Weights) : Store unit Weights :=
  mkStore [loaded_object (mkTokenizer tt "en_XX" "en_XX" lang_codes) w]
          (Some 0).
End Toy.

(** Blank text: nothing but white space, as [str.isspace] has it, or
    nothing at all. *)
Definition is_space (c : ascii) : bool :=
  match nat_of_ascii c with
  | 9 | 10 | 11 | 12 | 13 | 32 => true
  | _ => false
  end.

Definition blank (text : string) : bool :=
  forallb is_space (list_ascii_of_string text).

(** ** Further notions: widgets, the cached object, runs that returned *)

(** The input widgets among the events. *)
Inductive Widget := Slider | TextArea | Button.

Definition widgets (evs : list Event) : list Widget :=
  omap (fun ev => match ev with
                  | St_slider _ _ _ _ _ => Some Slider
                  | St_text_area _ _ _ _ _ => Some TextArea
                  | St_button _ _ _ => Some Button
                  | _ => None
                  end) evs.

(** The events that fetching the translator can emit. *)
Definition of_loading (ev : Event) : bool :=
  match ev with
  | Call_load_model _ | Tokenizer_from_pretrained _ | Model_from_pretrained _
  | St_error _ => true
  | _ => false
  end.

Definition model_loads (evs : list Event) : list string :=
  omap (fun ev => match ev with Model_from_pretrained n => Some n | _ => None end)
       evs.

Section Invariants.
Context {Env Vocab Weights : Type} `{!Transformers Env Vocab Weights}.

(** The object under the cached handle is a completely built translator. *)
Definition initialised (s : Store Vocab Weights) : Prop :=
  ∀ l, resource_cache s = Some l →
       ∃ tk m, heap s !! l = Some (loaded_object tk m).

(** The cache holds a translator. *)
Definition cached (s : Store Vocab Weights) : bool :=
  match resource_cache s with Some _ => true | None => false end.

(** The run was not ended by an exception. *)
Definition returned (r : Run Vocab Weights) : bool :=
  match run_outcome r with Return _ => true | Raise _ => false end.

End Invariants.

(** A second instance of the library: the tokenizer and the decoder of
    [Toy], and a model whose [generate] returns an empty batch. *)
Module Mute.
Definition model_from_pretrained (hub : Toy.Hub) (name : string) : Outcome unit :=
  match hub with
  | Toy.Offline => Raise Toy.OSError
  | Toy.Serving _ => Return tt
  end.

Definition generate (w : unit) (input_ids attention_mask : Tensor)
    (args : GenerateArgs) : Outcome Tensor :=
  Return [].

#[export] Instance lib : Transformers Toy.Hub unit unit := {
  MBartTokenizer_from_pretrained := Toy.tok_from_pretrained;
  MBartForConditionalGeneration_from_pretrained := model_from_pretrained;
  tokenizer_call := Toy.tok_call;
  model_generate := generate;
  batch_decode := Toy.decode_batch
}.

Definition loaded : Store unit unit :=
  mkStore [loaded_object
             (mkTokenizer tt "en_XX" "en_XX" Toy.lang_codes) tt] (Some 0).
End Mute.

(** A third instance: the tokenizer of [Toy] can always be loaded, the
    weights of the model only when the hub has them. *)
Module Flaky.
Definition OSError : Exception :=
  mkException "OSError" "no file named pytorch_model.bin".

Definition tok_from_pretrained (has_weights : bool) (name : string)
  : Outcome (Tokenizer unit) :=
  Return (mkTokenizer tt "en_XX" "en_XX" Toy.lang_codes).

Definition model_from_pretrained (has_weights : bool) (name : string)
  : Outcome Toy.Weights :=
  if has_weights then Return Toy.Echo else Raise OSError.

#[export] Instance lib : Transformers bool unit Toy.Weights := {
  MBartTokenizer_from_pretrained := tok_from_pretrained;
  MBartForConditionalGeneration_from_pretrained := model_from_pretrained;
  tokenizer_call := Toy.tok_call;
  model_generate := Toy.generate;
  batch_decode := Toy.decode_batch
}.
End Flaky.

(** A store whose translator has a tokenizer that knows no Urdu marker. *)
Definition without_urdu : Store unit Toy.Weights :=
  mkStore [loaded_object (mkTokenizer tt "en_XX" "en_XX" {[ "en_XX" := 250004%Z ]})
                         Toy.Echo] (Some 0).

(** ** Computations that leave the store alone *)

Section Frame.
Context {S : Type}.

Lemma reads_ret P {A} (a : A) : reads (S:=S) P (Py.ret a).
Proof. intros s. done. Qed.

Lemma reads_raise P {A} e : reads (S:=S) (A:=A) P (Py.raise e).
Proof. intros s. done. Qed.

Lemma reads_emit (P : Event → bool) ev :
  P ev = true → reads (S:=S) P (Py.emit ev).
Proof. intros H s. cbn. by rewrite H. Qed.

Lemma reads_call (P : Event → bool) {A} ev (o : Outcome A) :
  P ev = true → reads (S:=S) P (Py.call ev o).
Proof. intros H s. cbn. by rewrite H. Qed.

Lemma reads_getitem P {V} (d : gmap string V) k :
  reads (S:=S) P (Py.getitem d k).
Proof. unfold Py.getitem. destruct (d !! k); [apply reads_ret | apply reads_raise]. Qed.

Lemma reads_list_getitem P {V} (l : list V) i :
  reads (S:=S) P (Py.list_getitem l i).
Proof.
  unfold Py.list_getitem. destruct (l !! i); [apply reads_ret | apply reads_raise].
Qed.

Lemma reads_bind P {A B} (m : @Py.t S A) (k : A → @Py.t S B) :
  reads P m → (∀ a, reads P (k a)) → reads P (Py.bind m k).
Proof.
  intros Hm Hk s. unfold Py.bind.
  destruct (Hm s) as [Hs Hev]. destruct (m s) as [[[a|e] s1] evs1]; cbn in *; subst.
  - destruct (Hk a s) as [Hs' Hev']. destruct (k a s) as [[o s2] evs2]; cbn in *.
    split; [done|]. rewrite forallb_app, Hev, Hev'. done.
  - done.
Qed.

Lemma reads_try_except P {A} (m : @Py.t S A) (h : Exception → @Py.t S A) :
  reads P m → (∀ e, reads P (h e)) → reads P (Py.try_except m h).
Proof.
  intros Hm Hh s. unfold Py.try_except.
  destruct (Hm s) as [Hs Hev]. destruct (m s) as [[[a|e] s1] evs1]; cbn in *; subst.
  - done.
  - destruct (Hh e s) as [Hs' Hev']. destruct (h e s) as [[o s2] evs2]; cbn in *.
    split; [done|]. rewrite forallb_app, Hev, Hev'. done.
Qed.
End Frame.

Create HintDb reads discriminated.
#[export] Hint Resolve reads_ret reads_raise reads_getitem reads_list_getitem : reads.
#[export] Hint Extern 1 (reads _ (Py.emit _)) => apply reads_emit; reflexivity : reads.
#[export] Hint Extern 1 (reads _ (Py.call _ _)) => apply reads_call; reflexivity : reads.
#[export] Hint Extern 2 (reads _ (Py.bind _ _)) => apply reads_bind; [|intros ?] : reads.
#[export] Hint Extern 2 (reads _ (Py.try_except _ _)) =>
  apply reads_try_except; [|intros ?] : reads.

Section Properties.
Context {Env Vocab Weights : Type} `{!Transformers Env Vocab Weights}.

Implicit Types (s : Store Vocab Weights) (self : nat) (text : string).
Implicit Types (max_length : Z).

Lemma reads_getattr P {A} self attr (proj : Translator Vocab Weights → option A) :
  reads P (getattr self attr proj).
Proof. intros s. unfold getattr. by destruct (heap s !! self ≫= proj). Qed.
Hint Resolve reads_getattr : reads.

Lemma reads_translate_try self text max_length :
  reads of_translate (translate_try self text max_length).
Proof. unfold translate_try. auto 20 with reads. Qed.

Lemma reads_translate self text max_length :
  reads of_translate (translate self text max_length).
Proof. unfold translate. pose proof reads_translate_try. auto 10 with reads. Qed.

(** The store after a call of [translate] is the store before it. *)
Lemma translate_store self text max_length s :
  (translate self text max_length s).1.2 = s.
Proof. apply reads_translate. Qed.

(** One step of a computation: how each primitive behaves in front of
    its continuation. *)
Lemma bind_getattr {A B} self attr (proj : Translator Vocab Weights → option A)
    (k : A → Py.t B) s :
  Py.bind (getattr self attr proj) k s =
    match heap s !! self ≫= proj with
    | Some v => k v s
    | None => (Raise (AttributeError attr), s, [])
    end.
Proof.
  unfold Py.bind, getattr. destruct (heap s !! self ≫= proj); [|done].
  by destruct (k a s) as [[o s2] evs2].
Qed.

Lemma bind_call {A B} ev (o : Outcome A) (k : A → Py.t B) s :
  Py.bind (Py.call ev o) k s =
    match o with
    | Return a => ((k a s).1.1, (k a s).1.2, ev :: (k a s).2)
    | Raise e => (Raise e, s, [ev])
    end.
Proof.
  unfold Py.bind, Py.call. destruct o; [|done].
  by destruct (k a s) as [[o s2] evs2].
Qed.

Lemma bind_emit {B} ev (k : unit → Py.t B) s :
  Py.bind (Py.emit ev) k s = ((k tt s).1.1, (k tt s).1.2, ev :: (k tt s).2).
Proof. unfold Py.bind, Py.emit. by destruct (k tt s) as [[o s2] evs2]. Qed.

Lemma bind_getitem {V B} (d : gmap string V) key (k : V → Py.t B) s :
  Py.bind (Py.getitem d key) k s =
    match d !! key with
    | Some v => k v s
    | None => (Raise (KeyError key), s, [])
    end.
Proof.
  unfold Py.bind, Py.getitem. destruct (d !! key); [|done].
  cbn. by destruct (k v s) as [[o s2] evs2].
Qed.

Lemma bind_list_getitem {V B} (l : list V) i (k : V → Py.t B) s :
  Py.bind (Py.list_getitem l i) k s =
    match l !! i with
    | Some v => k v s
    | None => (Raise IndexError, s, [])
    end.
Proof.
  unfold Py.bind, Py.list_getitem. destruct (l !! i); [|done].
  cbn. by destruct (k v s) as [[o s2] evs2].
Qed.

Ltac py_step :=
  first [ rewrite !bind_getattr | rewrite !bind_call | rewrite !bind_getitem
        | rewrite !bind_list_getitem | rewrite !bind_emit ].

(** What [translate] computes depends on the [tokenizer] and [model]
    attributes of [self] only. *)
Lemma translate_try_outcome self1 self2 text max_length s1 s2 :
  heap s1 !! self1 ≫= tokenizer = heap s2 !! self2 ≫= tokenizer →
  heap s1 !! self1 ≫= model = heap s2 !! self2 ≫= model →
  (translate_try self1 text max_length s1).1.1
    = (translate_try self2 text max_length s2).1.1
  ∧ (translate_try self1 text max_length s1).2
    = (translate_try self2 text max_length s2).2.
Proof.
  intros Htk Hm. unfold translate_try.
  py_step. rewrite Htk.
  destruct (heap s2 !! self2 ≫= tokenizer) as [tk|] eqn:Htk2; [|by cbn].
  py_step. destruct (tokenizer_call _ _ _) as [enc|e]; [|by cbn]. cbn.
  py_step. rewrite Hm. destruct (heap s2 !! self2 ≫= model) as [m|]; [|by cbn].
  py_step. destruct (enc !! "input_ids") as [ids|]; [|by cbn].
  py_step. destruct (enc !! "attention_mask") as [mask|]; [|by cbn].
  py_step. rewrite Htk, Htk2.
  py_step. destruct (lang_code_to_id tk !! "ur_PK") as [bos|]; [|by cbn].
  py_step. destruct (model_generate _ _ _ _) as [toks|e]; [|by cbn]. cbn.
  py_step. rewrite Htk, Htk2.
  py_step. destruct (batch_decode _ _ _) as [decoded|e]; [|by cbn]. cbn.
  py_step. by destruct (decoded !! 0); cbn.
Qed.

Lemma translate_unfold self text max_length s :
  translate self text max_length s =
    match translate_try self text max_length s with
    | (Return r, s1, evs) =>
        (Return r, s1, Call_translate self text max_length :: evs)
    | (Raise e, s1, evs) =>
        (Return None, s1,
         Call_translate self text max_length
           :: evs ++ [St_error ("Translation error: " +:+ str e)])
    end.
Proof.
  unfold translate. py_step. unfold Py.try_except.
  by destruct (translate_try self text max_length s) as [[[r|e] s1] evs].
Qed.

Lemma translate_try_store self text max_length s :
  (translate_try self text max_length s).1.2 = s.
Proof. apply reads_translate_try. Qed.

(** [translate] never raises. *)
Lemma translate_returns self text max_length s :
  ∃ r, (translate self text max_length s).1.1 = Return r.
Proof.
  rewrite translate_unfold.
  destruct (translate_try self text max_length s) as [[[r|e] s1] evs]; eauto.
Qed.

(** The try block on the path where every step succeeds. *)
Lemma translate_try_success self text max_length s tk m enc ids mask bos toks
    cand rest :
  heap s !! self ≫= tokenizer = Some tk →
  heap s !! self ≫= model = Some m →
  tokenizer_call tk text (translate_args max_length) = Return enc →
  enc !! "input_ids" = Some ids →
  enc !! "attention_mask" = Some mask →
  lang_code_to_id tk !! "ur_PK" = Some bos →
  model_generate m ids mask (generate_args max_length bos) = Return toks →
  batch_decode tk toks true = Return (cand :: rest) →
  translate_try self text max_length s =
    (Return (Some cand), s,
     [Tokenizer_call text (translate_args max_length);
      Model_generate ids mask (generate_args max_length bos);
      Batch_decode toks true]).
Proof.
  intros Htk Hm Henc Hids Hmask Hbos Hgen Hdec. unfold translate_try.
  py_step. rewrite Htk. py_step. rewrite Henc. cbn.
  py_step. rewrite Hm. py_step. rewrite Hids. py_step. rewrite Hmask.
  py_step. rewrite Htk. py_step. rewrite Hbos. py_step. rewrite Hgen. cbn.
  py_step. rewrite Htk. py_step. rewrite Hdec. cbn. done.
Qed.

Lemma translate_try_steps self text max_length s :
  steps (translate_try self text max_length s).2
    `prefix_of` [Tokenize; Generate; Decode]
  ∧ Forall (step_parameters text max_length)
           (translate_try self text max_length s).2.
Proof.
  assert (∀ evs : list Event,
    (∃ k, [Tokenize; Generate; Decode] = steps evs ++ k) →
    steps evs `prefix_of` [Tokenize; Generate; Decode]) as Hpre by done.
  unfold translate_try.
  py_step. destruct (heap s !! self ≫= tokenizer) as [tk|] eqn:Htk; cbn [fst snd].
  2: { split; [apply Hpre; by eexists | by repeat constructor]. }
  py_step. destruct (tokenizer_call _ _ _) as [enc|e]; cbn [fst snd].
  2: { split; [apply Hpre; by eexists | by repeat constructor]. }
  py_step. destruct (heap s !! self ≫= model) as [m|]; cbn [fst snd].
  2: { split; [apply Hpre; by eexists | by repeat constructor]. }
  py_step. destruct (enc !! "input_ids") as [ids|]; cbn [fst snd].
  2: { split; [apply Hpre; by eexists | by repeat constructor]. }
  py_step. destruct (enc !! "attention_mask") as [mask|]; cbn [fst snd].
  2: { split; [apply Hpre; by eexists | by repeat constructor]. }
  py_step. rewrite Htk.
  py_step. destruct (lang_code_to_id tk !! "ur_PK") as [bos|]; cbn [fst snd].
  2: { split; [apply Hpre; by eexists | by repeat constructor]. }
  py_step. destruct (model_generate _ _ _ _) as [toks|e]; cbn [fst snd].
  2: { split; [apply Hpre; by eexists | by repeat constructor]. }
  py_step. rewrite Htk.
  py_step. destruct (batch_decode _ _ _) as [decoded|e]; cbn [fst snd].
  2: { split; [apply Hpre; by exists [] | by repeat constructor]. }
  py_step. destruct (decoded !! 0); cbn;
    (split; [by exists [] | by repeat constructor]).
Qed.

(** C1. For every text and max_length, [translate] performs the library
    steps in the order tokenize, generate, decode and never another order,
    each with the fixed parameters: the text is tokenized with padding and
    truncation to max_length; generation runs with 4 beams, length penalty
    1.0 and early stopping, capped at max_length; decoding strips special
    tokens.  When every step returns, these are exactly the calls made,
    the first generated token is forced to the id of the Urdu marker
    [ur_PK], and the value returned is the first decoded candidate. *)
Theorem translate_pipeline self text max_length s :
  (steps (translate self text max_length s).2
     `prefix_of` [Tokenize; Generate; Decode]
   ∧ Forall (step_parameters text max_length)
            (translate self text max_length s).2)
  ∧ ∀ tk m enc ids mask bos toks cand rest,
      heap s !! self ≫= tokenizer = Some tk →
      heap s !! self ≫= model = Some m →
      tokenizer_call tk text (mkTokenizerArgs "pt" true true max_length)
        = Return enc →
      enc !! "input_ids" = Some ids →
      enc !! "attention_mask" = Some mask →
      lang_code_to_id tk !! "ur_PK" = Some bos →
      model_generate m ids mask (mkGenerateArgs max_length 4 1 true bos)
        = Return toks →
      batch_decode tk toks true = Return (cand :: rest) →
      translate self text max_length s =
        (Return (Some cand), s,
         [Call_translate self text max_length;
          Tokenizer_call text (mkTokenizerArgs "pt" true true max_length);
          Model_generate ids mask (mkGenerateArgs max_length 4 1 true bos);
          Batch_decode toks true]).
Proof.
  split.
  - rewrite translate_unfold.
    destruct (translate_try_steps self text max_length s) as [Hp Hf].
    destruct (translate_try self text max_length s) as [[[r|e] s1] evs];
      cbn in *.
    + split; [done | by constructor].
    + split.
      * unfold steps in *. rewrite omap_app. cbn. by rewrite app_nil_r.
      * constructor; [done|]. apply Forall_app. split; [done|].
        by repeat constructor.
  - intros tk m enc ids mask bos toks cand rest Htk Hm Henc Hids Hmask Hbos
      Hgen Hdec.
    rewrite translate_unfold.
    by rewrite (translate_try_success _ _ _ _ _ _ _ _ _ _ _ _ _
                  Htk Hm Henc Hids Hmask Hbos Hgen Hdec).
Qed.

(** A value returned by the try block comes from the three steps. *)
Lemma translate_try_inv self text max_length s r s1 evs :
  translate_try self text max_length s = (Return r, s1, evs) →
  ∃ tk m enc ids mask bos toks cand rest,
    heap s !! self ≫= tokenizer = Some tk
    ∧ heap s !! self ≫= model = Some m
    ∧ tokenizer_call tk text (translate_args max_length) = Return enc
    ∧ enc !! "input_ids" = Some ids
    ∧ enc !! "attention_mask" = Some mask
    ∧ lang_code_to_id tk !! "ur_PK" = Some bos
    ∧ model_generate m ids mask (generate_args max_length bos) = Return toks
    ∧ batch_decode tk toks true = Return (cand :: rest)
    ∧ r = Some cand.
Proof.
  unfold translate_try.
  py_step. destruct (heap s !! self ≫= tokenizer) as [tk|] eqn:Htk; [|done].
  py_step. destruct (tokenizer_call _ _ _) as [enc|e] eqn:Henc; [|done].
  cbn [fst snd].
  py_step. destruct (heap s !! self ≫= model) as [m|] eqn:Hm; [|done].
  py_step. destruct (enc !! "input_ids") as [ids|] eqn:Hids; [|done].
  py_step. destruct (enc !! "attention_mask") as [mask|] eqn:Hmask; [|done].
  py_step. rewrite Htk.
  py_step. destruct (lang_code_to_id tk !! "ur_PK") as [bos|] eqn:Hbos; [|done].
  py_step. destruct (model_generate _ _ _ _) as [toks|e] eqn:Hgen; [|done].
  cbn [fst snd].
  py_step. rewrite Htk.
  py_step. destruct (batch_decode _ _ _) as [decoded|e] eqn:Hdec; [|done].
  cbn [fst snd].
  py_step. destruct decoded as [|cand rest]; cbn; [done|].
  intros [= <- <- <-]. by exists tk, m, enc, ids, mask, bos, toks, cand, rest.
Qed.

(** An exception of the tokenizer, of generation or of decoding is an
    exception of the try block. *)
Lemma tokenization_raises self text max_length s tk e :
  heap s !! self ≫= tokenizer = Some tk →
  tokenizer_call tk text (translate_args max_length) = Raise e →
  translate_try self text max_length s =
    (Raise e, s, [Tokenizer_call text (translate_args max_length)]).
Proof.
  intros Htk Henc. unfold translate_try.
  py_step. rewrite Htk. py_step. by rewrite Henc.
Qed.

Lemma generation_raises self text max_length s tk m enc ids mask bos e :
  heap s !! self ≫= tokenizer = Some tk →
  heap s !! self ≫= model = Some m →
  tokenizer_call tk text (translate_args max_length) = Return enc →
  enc !! "input_ids" = Some ids →
  enc !! "attention_mask" = Some mask →
  lang_code_to_id tk !! "ur_PK" = Some bos →
  model_generate m ids mask (generate_args max_length bos) = Raise e →
  translate_try self text max_length s =
    (Raise e, s,
     [Tokenizer_call text (translate_args max_length);
      Model_generate ids mask (generate_args max_length bos)]).
Proof.
  intros Htk Hm Henc Hids Hmask Hbos Hgen. unfold translate_try.
  py_step. rewrite Htk. py_step. rewrite Henc. cbn [fst snd].
  py_step. rewrite Hm. py_step. rewrite Hids. py_step. rewrite Hmask.
  py_step. rewrite Htk. py_step. rewrite Hbos. py_step. by rewrite Hgen.
Qed.

Lemma decoding_raises self text max_length s tk m enc ids mask bos toks e :
  heap s !! self ≫= tokenizer = Some tk →
  heap s !! self ≫= model = Some m →
  tokenizer_call tk text (translate_args max_length) = Return enc →
  enc !! "input_ids" = Some ids →
  enc !! "attention_mask" = Some mask →
  lang_code_to_id tk !! "ur_PK" = Some bos →
  model_generate m ids mask (generate_args max_length bos) = Return toks →
  batch_decode tk toks true = Raise e →
  translate_try self text max_length s =
    (Raise e, s,
     [Tokenizer_call text (translate_args max_length);
      Model_generate ids mask (generate_args max_length bos);
      Batch_decode toks true]).
Proof.
  intros Htk Hm Henc Hids Hmask Hbos Hgen Hdec. unfold translate_try.
  py_step. rewrite Htk. py_step. rewrite Henc. cbn [fst snd].
  py_step. rewrite Hm. py_step. rewrite Hids. py_step. rewrite Hmask.
  py_step. rewrite Htk. py_step. rewrite Hbos. py_step. rewrite Hgen.
  cbn [fst snd]. py_step. rewrite Htk. py_step. by rewrite Hdec.
Qed.

(** C2. Whatever exception [e] the try block of [translate] raises (in
    tokenization, generation, decoding or between them), [translate]
    catches it: it reports the message "Translation error: " followed by
    [str e] with [st.error] after the events of the failed steps, returns
    [None] and does not raise.  The store, hence the translator object, is
    as before the call, and a later request behaves as if the failed one
    had not been made. *)
Theorem translate_catches self text max_length s e s1 evs :
  translate_try self text max_length s = (Raise e, s1, evs) →
  translate self text max_length s =
    (Return None, s,
     Call_translate self text max_length
       :: evs ++ [St_error ("Translation error: " +:+ str e)])
  ∧ ∀ text' max_length',
      translate self text' max_length' (translate self text max_length s).1.2
      = translate self text' max_length' s.
Proof.
  intros Htry. split.
  - rewrite translate_unfold, Htry.
    pose proof (translate_try_store self text max_length s) as Hs.
    rewrite Htry in Hs. cbn in Hs. by subst.
  - intros text' max_length'. by rewrite translate_store.
Qed.

(** C3. For a fixed model state, the [tokenizer] and [model] attributes
    of the translator, [translate] is deterministic: two calls with the
    same text and max_length return the same value and make the same
    library calls, whatever else differs between the two stores, and a
    call repeated on the same translator gives the same result again. *)
Theorem translate_deterministic text max_length :
  (∀ self1 self2 s1 s2,
     heap s1 !! self1 ≫= tokenizer = heap s2 !! self2 ≫= tokenizer →
     heap s1 !! self1 ≫= model = heap s2 !! self2 ≫= model →
     (translate self1 text max_length s1).1.1
       = (translate self2 text max_length s2).1.1
     ∧ tail (translate self1 text max_length s1).2
       = tail (translate self2 text max_length s2).2)
  ∧ ∀ self s,
      translate self text max_length (translate self text max_length s).1.2
      = translate self text max_length s.
Proof.
  split.
  - intros self1 self2 s1 s2 Htk Hm. rewrite !translate_unfold.
    destruct (translate_try_outcome self1 self2 text max_length s1 s2 Htk Hm)
      as [Ho Hev].
    destruct (translate_try self1 text max_length s1) as [[[r1|e1] s1'] evs1],
      (translate_try self2 text max_length s2) as [[[r2|e2] s2'] evs2];
      cbn in *; by simplify_eq.
  - intros self s. by rewrite translate_store.
Qed.

(** C7. [translate] passes max_length both as the truncation bound of the
    tokenizer call and as the cap of [generate].  Hence, when [generate]
    honours its cap, a string returned by [translate] is the first
    candidate decoded from generated sequences of at most max_length
    tokens each; this holds for every max_length, in particular for those
    of the slider's range 50 to 250. *)
Theorem translate_token_bound self text max_length s t :
  generate_respects_max_length →
  (translate self text max_length s).1.1 = Return (Some t) →
  ∃ tk ids mask bos toks rest,
    (translate self text max_length s).2 =
      [Call_translate self text max_length;
       Tokenizer_call text (mkTokenizerArgs "pt" true true max_length);
       Model_generate ids mask (mkGenerateArgs max_length 4 1 true bos);
       Batch_decode toks true]
    ∧ batch_decode tk toks true = Return (t :: rest)
    ∧ Forall (fun row : list Z => (Z.of_nat (length row) ≤ max_length)%Z) toks.
Proof.
  intros Hcap. rewrite translate_unfold.
  destruct (translate_try self text max_length s) as [[[r|e] s1] evs] eqn:Htry;
    cbn; [|done].
  intros [= ->].
  destruct (translate_try_inv _ _ _ _ _ _ _ Htry)
    as (tk & m & enc & ids & mask & bos & toks & cand & rest
        & Htk & Hm & Henc & Hids & Hmask & Hbos & Hgen & Hdec & [= ->]).
  rewrite (translate_try_success _ _ _ _ _ _ _ _ _ _ _ _ _
             Htk Hm Henc Hids Hmask Hbos Hgen Hdec) in Htry.
  injection Htry as _ <-.
  exists tk, ids, mask, bos, toks, rest. split; [done|]. split; [done|].
  apply (Hcap _ _ _ _ _ Hgen).
Qed.

(** C10. A call of [translate] leaves the store as it found it, whether
    it returns a string or catches an exception: the attributes
    [model_name], [device], [tokenizer] and [model] of the translator, and
    the source and target language tags of its tokenizer, are the same
    after the call as before. *)
Theorem translate_frame self text max_length s :
  let s' := (translate self text max_length s).1.2 in
  s' = s
  ∧ heap s' !! self ≫= model_name = heap s !! self ≫= model_name
  ∧ heap s' !! self ≫= device = heap s !! self ≫= device
  ∧ heap s' !! self ≫= tokenizer = heap s !! self ≫= tokenizer
  ∧ heap s' !! self ≫= model = heap s !! self ≫= model
  ∧ src_lang <$> (heap s' !! self ≫= tokenizer)
    = src_lang <$> (heap s !! self ≫= tokenizer)
  ∧ tgt_lang <$> (heap s' !! self ≫= tokenizer)
    = tgt_lang <$> (heap s !! self ≫= tokenizer).
Proof. cbn zeta. by rewrite translate_store. Qed.

(** *** The constructor and the cache *)

Lemma bind_setattr {B} self f (k : unit → Py.t B) s :
  Py.bind (setattr self f) k s
  = k tt (mkStore (alter f self (heap s)) (resource_cache s)).
Proof.
  unfold Py.bind, setattr, Py.modify.
  by destruct (k tt _) as [[o s2] evs2].
Qed.

Lemma alter_new {A} (f : A → A) (h : list A) (o : A) :
  alter f (length h) (h ++ [o]) = h ++ [f o].
Proof. induction h as [|x h IH]; cbn; [done|]. by rewrite IH. Qed.

Lemma lookup_new {A} (h : list A) (o : A) : (h ++ [o]) !! length h = Some o.
Proof. induction h as [|x h IH]; cbn; done. Qed.

Lemma construct_spec env s :
  EnglishToRomanUrduTranslator env s =
    let self := length (heap s) in
    let store obj := mkStore (heap s ++ [obj]) (resource_cache s) in
    match MBartTokenizer_from_pretrained env the_model_name with
    | Raise e =>
        (Raise e,
         store (mkTranslator (Some the_model_name) (Some "cpu") None None),
         [Call_load_model self; Tokenizer_from_pretrained the_model_name;
          St_error ("Error loading model: " +:+ str e)])
    | Return tk =>
        match MBartForConditionalGeneration_from_pretrained env the_model_name with
        | Raise e =>
            (Raise e,
             store (mkTranslator (Some the_model_name) (Some "cpu") (Some tk) None),
             [Call_load_model self; Tokenizer_from_pretrained the_model_name;
              Model_from_pretrained the_model_name;
              St_error ("Error loading model: " +:+ str e)])
        | Return m =>
            (Return self,
             store (mkTranslator (Some the_model_name) (Some "cpu")
                      (Some (mkTokenizer (vocab tk) "en_XX" "ur_PK"
                               (lang_code_to_id tk)))
                      (Some m)),
             [Call_load_model self; Tokenizer_from_pretrained the_model_name;
              Model_from_pretrained the_model_name])
        end
    end.
Proof.
  destruct s as [h c].
  cbv [EnglishToRomanUrduTranslator __init__ load_model Py.bind Py.try_except
       new_object setattr getattr Py.modify Py.emit Py.call Py.ret Py.raise
       heap resource_cache].
  fold the_model_name.
  repeat (rewrite ?alter_new, ?lookup_new;
          cbn [mbind option_bind set_device set_model_name set_tokenizer
               set_model set_src_lang set_tgt_lang model_name tokenizer
               empty_object vocab src_lang tgt_lang lang_code_to_id app]).
  destruct (MBartTokenizer_from_pretrained env the_model_name) as [tk|e];
    [|done].
  repeat (rewrite ?alter_new, ?lookup_new;
          cbn [mbind option_bind set_device set_model_name set_tokenizer
               set_model set_src_lang set_tgt_lang model_name tokenizer
               empty_object vocab src_lang tgt_lang lang_code_to_id app]).
  destruct (MBartForConditionalGeneration_from_pretrained env the_model_name)
    as [m|e]; [|done].
  repeat (rewrite ?alter_new, ?lookup_new;
          cbn [mbind option_bind set_device set_model_name set_tokenizer
               set_model set_src_lang set_tgt_lang model_name tokenizer
               empty_object vocab src_lang tgt_lang lang_code_to_id app]).
  done.
Qed.

Lemma cache_hit (f : Py.t nat) s l :
  resource_cache s = Some l → st_cache_resource f s = (Return l, s, []).
Proof. intros H. unfold st_cache_resource, Py.bind, Py.get. by rewrite H. Qed.

Lemma cache_miss (f : Py.t nat) s :
  resource_cache s = None →
  st_cache_resource f s =
    match f s with
    | (Return l, s1, evs) => (Return l, mkStore (heap s1) (Some l), evs)
    | (Raise e, s1, evs) => (Raise e, s1, evs)
    end.
Proof.
  intros H. unfold st_cache_resource, Py.bind, Py.get, Py.modify, Py.ret.
  rewrite H. destruct (f s) as [[[l|e] s1] evs]; cbn; [|done].
  by rewrite !app_nil_r.
Qed.

(** *** One run of the script *)

Lemma main_run inp s :
  main inp s =
    match st_cache_resource (get_translator (env inp)) s with
    | (Raise e, s1, evs0) => (Raise e, s1, page_top ++ evs0)
    | (Return l, s1, evs0) =>
        (Return tt, s1,
         page_top ++ evs0 ++ page_controls ++ button_events inp l s1
           ++ page_bottom)
    end.
Proof.
  unfold main, button_events, on_translate_button.
  cbv [Py.bind Py.emit Py.with_ st_slider st_columns st_text_area st_button
       Py.list_getitem Py.ret Py.raise map seq lookup list_lookup page_top
       page_controls page_bottom].
  destruct (st_cache_resource (get_translator (env inp)) s)
    as [[[l|e] s1] evs0]; [|done].
  fold (slider_value (slider_position inp)).
  destruct (button_clicked inp); [|by cbn].
  destruct (truthy (text_area_value inp)); [|by cbn].
  destruct (translate_returns l (text_area_value inp)
              (slider_value (slider_position inp)) s1) as [r Hr].
  pose proof (translate_store l (text_area_value inp)
                (slider_value (slider_position inp)) s1) as Hs.
  destruct (translate l (text_area_value inp)
              (slider_value (slider_position inp)) s1) as [[o s2] evs].
  cbn in Hr, Hs. subst o s2. cbn [fst snd].
  destruct r as [t|]; cbn [truthy_opt format].
  - destruct (truthy t); cbn; by rewrite <- ?app_assoc.
  - cbn. by rewrite <- ?app_assoc.
Qed.

Lemma fetch_spec env s :
  fetch env s (st_cache_resource (get_translator env) s).1.1
              (st_cache_resource (get_translator env) s).1.2
              (st_cache_resource (get_translator env) s).2.
Proof.
  destruct (resource_cache s) as [l|] eqn:Hc.
  - rewrite (cache_hit _ _ _ Hc). by constructor.
  - rewrite (cache_miss _ _ Hc). unfold get_translator.
    rewrite construct_spec. cbn zeta.
    destruct (MBartTokenizer_from_pretrained env the_model_name) as [tk|e] eqn:Htk.
    + destruct (MBartForConditionalGeneration_from_pretrained env the_model_name)
        as [m|e] eqn:Hm; cbn [fst snd heap].
      * by apply fetch_load.
      * rewrite Hc. by eapply fetch_no_model.
    + cbn [fst snd]. rewrite Hc. by apply fetch_no_tokenizer.
Qed.

Lemma main_fetch inp s :
  ∃ o s1 evs0,
    fetch (env inp) s o s1 evs0
    ∧ main inp s =
        match o with
        | Return l =>
            (Return tt, s1,
             page_top ++ evs0 ++ page_controls ++ button_events inp l s1
               ++ page_bottom)
        | Raise e => (Raise e, s1, page_top ++ evs0)
        end.
Proof.
  pose proof (fetch_spec (env inp) s) as Hf. rewrite main_run.
  destruct (st_cache_resource (get_translator (env inp)) s) as [[o s1] evs0].
  exists o, s1, evs0. split; [done|]. by destruct o.
Qed.

(** *** Observations on the events of [translate] and of the button *)

Lemma omap_none {A} (P : Event → bool) (f : Event → option A) evs :
  forallb P evs = true → (∀ ev, P ev = true → f ev = None) → omap f evs = [].
Proof.
  intros Hall Hf. induction evs as [|ev evs IH]; [done|].
  cbn in Hall. apply andb_prop in Hall as [Hev Hall].
  cbn. rewrite (Hf ev Hev). by apply IH.
Qed.

Lemma reads_library self text max_length :
  reads of_library (translate_try self text max_length).
Proof. unfold translate_try. auto 20 with reads. Qed.

Lemma translate_calls_translate self text max_length s :
  translate_calls (translate self text max_length s).2 = [(self, text, max_length)].
Proof.
  rewrite translate_unfold.
  destruct (reads_library self text max_length s) as [_ Hev].
  assert (translate_calls (translate_try self text max_length s).2 = []) as Hnil.
  { eapply omap_none; [done|]. by intros []. }
  destruct (translate_try self text max_length s) as [[[r|e] s1] evs];
    cbn in *; unfold translate_calls in *.
  - by rewrite Hnil.
  - by rewrite omap_app, Hnil.
Qed.

Lemma translate_silent {A} (f : Event → option A) self text max_length s :
  (∀ ev, of_translate ev = true → f ev = None) →
  omap f (translate self text max_length s).2 = [].
Proof.
  intros Hf. eapply omap_none; [|done]. apply reads_translate.
Qed.

Lemma translate_calls_button inp l s :
  translate_calls (button_events inp l s) =
    if button_clicked inp && truthy (text_area_value inp)
    then [(l, text_area_value inp, slider_value (slider_position inp))]
    else [].
Proof.
  unfold button_events.
  destruct (button_clicked inp), (truthy (text_area_value inp)); try done.
  cbn [andb]. unfold translate_calls at 1. cbn [omap list_omap].
  rewrite !omap_app. fold translate_calls. rewrite translate_calls_translate.
  destruct (translate _ _ _ _).1.1 as [[t|]|]; [destruct (truthy t)|..]; done.
Qed.


Lemma forallb_mono (P Q : Event → bool) evs :
  (∀ ev, P ev = true → Q ev = true) →
  forallb P evs = true → forallb Q evs = true.
Proof.
  intros HPQ. induction evs as [|ev evs IH]; [done|]. cbn.
  intros [Hev Hall]%andb_prop. by rewrite (HPQ ev Hev), IH.
Qed.

Ltac by_event :=
  let ev := fresh "ev" in
  intros ev; destruct ev; try done;
  match goal with c : Container |- _ => destruct c end; done.

Lemma button_events_kind inp l s : forallb of_button (button_events inp l s) = true.
Proof.
  unfold button_events.
  destruct (button_clicked inp), (truthy (text_area_value inp)); try done.
  cbn [forallb of_button andb]. rewrite !forallb_app.
  destruct (reads_translate l (text_area_value inp)
              (slider_value (slider_position inp)) s) as [_ Hev].
  rewrite (forallb_mono of_translate of_button _ ltac:(by_event) Hev).
  destruct (translate _ _ _ _).1.1 as [[t|]|]; [destruct (truthy t)|..]; done.
Qed.

Lemma button_silent {A} (f : Event → option A) inp l s :
  (∀ ev, of_button ev = true → f ev = None) →
  omap f (button_events inp l s) = [].
Proof. intros Hf. eapply omap_none; [|done]. apply button_events_kind. Qed.

Local Arguments button_events : simpl never.


Lemma warnings_button inp l s :
  warnings (button_events inp l s) =
    if button_clicked inp && negb (truthy (text_area_value inp))
    then ["⚠️ Please enter some text to translate"]
    else [].
Proof.
  unfold button_events.
  destruct (button_clicked inp), (truthy (text_area_value inp)); try done.
  cbn [andb negb]. unfold warnings. cbn [omap list_omap].
  rewrite !omap_app, translate_silent by by_event.
  destruct (translate _ _ _ _).1.1 as [[t|]|]; [destruct (truthy t)|..]; done.
Qed.

Lemma shown_button inp l s :
  (rendered (button_events inp l s), successes (button_events inp l s)) =
    if button_clicked inp && truthy (text_area_value inp)
    then shown (translate l (text_area_value inp)
                          (slider_value (slider_position inp)) s).1.1
    else ([], []).
Proof.
  unfold button_events.
  destruct (button_clicked inp), (truthy (text_area_value inp)); try done.
  cbn [andb]. unfold rendered, successes. cbn [omap list_omap].
  rewrite !omap_app, !translate_silent by by_event.
  destruct (translate _ _ _ _).1.1 as [[t|]|]; [cbn; destruct (truthy t)|..]; done.
Qed.

(** C4, as the code has it. A run never calls [translate] with the empty
    string: every call it makes has the content of the text area as its
    text, comes from an activation of the button, and that text is not
    empty.  On an activation with the empty string as input the run makes
    no call of [translate], and, unless loading the translator ended the
    run before the button was reached, it shows exactly one warning. *)
Theorem empty_input_warns inp s :
  (∀ self text max_length,
     (self, text, max_length) ∈ translate_calls (main inp s).2 →
     text ≠ "" ∧ text = text_area_value inp ∧ button_clicked inp = true)
  ∧ (button_clicked inp = true → text_area_value inp = "" →
     translate_calls (main inp s).2 = []
     ∧ ((main inp s).1.1 = Return tt →
        warnings (main inp s).2 = ["⚠️ Please enter some text to translate"])).
Proof.
  destruct (main_fetch inp s) as (o & s1 & evs0 & Hf & ->).
  split.
  - intros self text max_length.
    destruct Hf; cbn [snd]; unfold translate_calls;
      rewrite ?omap_app; fold translate_calls;
      rewrite ?translate_calls_button; cbn.
    all: try (intros []%elem_of_nil).
    all: destruct (button_clicked inp); [|intros []%elem_of_nil].
    all: destruct (text_area_value inp) eqn:Htext; [intros []%elem_of_nil|].
    all: by intros [= -> -> ->]%list_elem_of_singleton.
  - intros Hclick Htext.
    destruct Hf; cbn [fst snd]; unfold translate_calls, warnings;
      rewrite ?omap_app; fold translate_calls; fold warnings;
      rewrite ?translate_calls_button, ?warnings_button, ?Hclick, ?Htext;
      by cbn.
Qed.

Local Arguments translate : simpl never.

(** A run that is not ended by an exception has the translator in the
    cache, and what it shows besides the page itself comes from the body
    of [if st.button(...)]. *)
Lemma main_returns inp s :
  (main inp s).1.1 = Return tt →
  ∃ l, resource_cache (main inp s).1.2 = Some l
       ∧ translate_calls (main inp s).2
         = translate_calls (button_events inp l (main inp s).1.2)
       ∧ rendered (main inp s).2
         = rendered (button_events inp l (main inp s).1.2)
       ∧ successes (main inp s).2
         = successes (button_events inp l (main inp s).1.2)
       ∧ warnings (main inp s).2
         = warnings (button_events inp l (main inp s).1.2).
Proof.
  destruct (main_fetch inp s) as (o & s1 & evs0 & Hf & ->).
  destruct Hf as [l Hc|tk m Hc Htk Hm|e|tk e]; cbn [fst snd]; try done; intros _.
  - exists l. split; [done|].
    unfold translate_calls, rendered, successes, warnings.
    rewrite !omap_app. cbn. by rewrite !app_nil_r.
  - exists (length (heap s)). split; [done|].
    unfold translate_calls, rendered, successes, warnings.
    rewrite !omap_app. cbn. by rewrite !app_nil_r.
Qed.

(** C6, as the code has it. On an activation with non-empty input, in a
    run that obtained the translator, the front end calls [translate]
    once, on the cached translator, with the input text.  When the call
    returns a non-empty string, that string is rendered inside the
    translation-box container and the success message is shown; when it
    returns [None] or the empty string, neither the output panel nor the
    success message is produced. *)
Theorem activation_renders inp s :
  button_clicked inp = true →
  text_area_value inp ≠ "" →
  (main inp s).1.1 = Return tt →
  ∃ l max_length,
    resource_cache (main inp s).1.2 = Some l
    ∧ translate_calls (main inp s).2 = [(l, text_area_value inp, max_length)]
    ∧ match (translate l (text_area_value inp) max_length (main inp s).1.2).1.1 with
      | Return (Some t) =>
          if truthy t
          then rendered (main inp s).2 = [translation_box t]
               ∧ successes (main inp s).2 = ["Translation completed! ✨"]
          else rendered (main inp s).2 = [] ∧ successes (main inp s).2 = []
      | _ => rendered (main inp s).2 = [] ∧ successes (main inp s).2 = []
      end.
Proof.
  intros Hclick Htext Hret.
  assert (truthy (text_area_value inp) = true) as Htruthy
      by by destruct (text_area_value inp).
  destruct (main_returns inp s Hret) as (l & Hc & Hcalls & Hr & Hs & _).
  exists l, (slider_value (slider_position inp)). split; [done|].
  rewrite Hcalls, translate_calls_button, Hclick, Htruthy. split; [done|].
  pose proof (shown_button inp l (main inp s).1.2) as Hshown.
  rewrite Hclick, Htruthy, <- Hr, <- Hs in Hshown. cbn [andb] in Hshown.
  destruct (translate _ _ _ _).1.1 as [[t|]|]; cbn in Hshown;
    [destruct (truthy t)|..]; by simplify_eq.
Qed.

(** *** Loading: failure and memoisation *)

Lemma load_fails_fetch inp s e o s1 evs0 :
  resource_cache s = None → load_fails (env inp) e →
  fetch (env inp) s o s1 evs0 →
  o = Raise e ∧ resource_cache s1 = None
  ∧ last evs0 = Some (St_error ("Error loading model: " +:+ str e))
  ∧ translate_calls evs0 = [] ∧ generate_calls evs0 = [].
Proof.
  intros Hc Hfail Hf.
  destruct Hf as [l Hc'|tk m _ Htk Hm|e' _ Htk|tk e' _ Htk Hm];
    [congruence|destruct Hfail as [?|(tk' & ? & ?)]; congruence|..].
  - destruct Hfail as [?|(tk' & ? & ?)]; [|congruence].
    by assert (e' = e) as -> by congruence.
  - destruct Hfail as [?|(tk' & ? & ?)]; [congruence|].
    by assert (e' = e) as -> by congruence.
Qed.

Lemma load_failure_run inp s e :
  resource_cache s = None → load_fails (env inp) e →
  (main inp s).1.1 = Raise e
  ∧ resource_cache (main inp s).1.2 = None
  ∧ last (main inp s).2 = Some (St_error ("Error loading model: " +:+ str e))
  ∧ translate_calls (main inp s).2 = []
  ∧ generate_calls (main inp s).2 = [].
Proof.
  intros Hc Hfail.
  destruct (main_fetch inp s) as (o & s1 & evs0 & Hf & ->).
  destruct (load_fails_fetch inp s e o s1 evs0 Hc Hfail Hf)
    as (-> & Hc1 & Hlast & Hcalls & Hgen).
  cbn [fst snd]. split; [done|]. split; [done|]. split.
  - rewrite last_app. by rewrite Hlast.
  - unfold translate_calls, generate_calls in *.
    by rewrite !omap_app, Hcalls, Hgen.
Qed.

(** An object whose [model] attribute was never assigned cannot
    translate: the call returns [None] before the generation step. *)
Lemma translate_without_model self text max_length s :
  heap s !! self ≫= model = None →
  (translate self text max_length s).1.1 = Return None
  ∧ generate_calls (translate self text max_length s).2 = [].
Proof.
  intros Hm. rewrite translate_unfold. unfold translate_try.
  py_step. destruct (heap s !! self ≫= tokenizer) as [tk|]; [|done].
  py_step. destruct (tokenizer_call _ _ _) as [enc|e]; [|done]. cbn [fst snd].
  py_step. by rewrite Hm.
Qed.

Lemma failed_object_cannot_translate inp s e text max_length :
  resource_cache s = None → load_fails (env inp) e →
  (translate (length (heap s)) text max_length (main inp s).1.2).1.1
    = Return None
  ∧ generate_calls
      (translate (length (heap s)) text max_length (main inp s).1.2).2 = [].
Proof.
  intros Hc Hfail.
  destruct (main_fetch inp s) as (o & s1 & evs0 & Hf & ->).
  destruct Hf as [l Hc'|tk m _ Htk Hm|e' _ Htk|tk e' _ Htk Hm];
    [congruence|destruct Hfail as [?|(tk' & ? & ?)]; congruence|..];
    cbn [fst snd]; apply translate_without_model; cbn [heap];
    by rewrite lookup_new.
Qed.

(** C5, as the code has it. When loading the tokenizer or the model
    raises in a run that finds no translator in the cache, the error is
    displayed with [st.error] and the same exception is raised again: it
    ends the run, which calls neither [translate] nor [generate].  The
    object left half built has no model, and a call of [translate] on it
    returns [None] without reaching the generation step.  The failure is
    not remembered: nothing is put in the cache, so each later run attempts
    the load again, and as long as loading fails no run reaches a
    translation or the generation step. *)
Theorem load_failure_reraised :
  (∀ inp s e,
     resource_cache s = None → load_fails (env inp) e →
     (main inp s).1.1 = Raise e
     ∧ resource_cache (main inp s).1.2 = None
     ∧ last (main inp s).2 = Some (St_error ("Error loading model: " +:+ str e))
     ∧ translate_calls (main inp s).2 = []
     ∧ generate_calls (main inp s).2 = []
     ∧ ∀ text max_length,
         (translate (length (heap s)) text max_length (main inp s).1.2).1.1
           = Return None
         ∧ generate_calls
             (translate (length (heap s)) text max_length (main inp s).1.2).2
           = [])
  ∧ ∀ inputs s,
      resource_cache s = None →
      Forall (fun inp => ∃ e, load_fails (env inp) e) inputs →
      Forall (fun r => (∃ e, run_outcome r = Raise e)
                       ∧ length (loads (run_events r)) = 1
                       ∧ translate_calls (run_events r) = []
                       ∧ generate_calls (run_events r) = [])
             (run_process inputs s).
Proof.
  split.
  { intros inp s e Hc Hfail.
    destruct (load_failure_run inp s e Hc Hfail) as (? & ? & ? & ? & ?).
    repeat (split; [done|]). intros text max_length.
    by apply (failed_object_cannot_translate inp s e). }
  intros inputs. induction inputs as [|inp rest IH]; intros s Hc Hall;
    [constructor|].
  apply Forall_cons in Hall as [[e Hfail] Hall]. cbn [run_process].
  destruct (load_failure_run inp s e Hc Hfail) as (Ho & Hc1 & _ & Hcalls & Hgen).
  assert (length (loads (main inp s).2) = 1) as Hloads.
  { destruct (main_fetch inp s) as (o & s1 & evs0 & Hf & Hmain).
    rewrite Hmain in Ho |- *.
    destruct Hf; cbn [fst snd] in *; try done; unfold loads;
      by rewrite !omap_app. }
  destruct (main inp s) as [[o s1] evs]. cbn [fst snd] in *.
  constructor; [|by apply IH]. cbn. eauto.
Qed.

Lemma main_hit inp s l :
  resource_cache s = Some l →
  (main inp s).1.1 = Return tt ∧ (main inp s).1.2 = s
  ∧ loads (main inp s).2 = [].
Proof.
  intros Hc. destruct (main_fetch inp s) as (o & s1 & evs0 & Hf & ->).
  destruct Hf; try congruence. cbn [fst snd]. split; [done|]. split; [done|].
  unfold loads. rewrite !omap_app, button_silent by by_event. done.
Qed.

Lemma main_miss inp s :
  resource_cache s = None →
  length (loads (main inp s).2) = 1
  ∧ match (main inp s).1.1 with
    | Return _ => is_Some (resource_cache (main inp s).1.2)
    | Raise _ => resource_cache (main inp s).1.2 = None
    end.
Proof.
  intros Hc. destruct (main_fetch inp s) as (o & s1 & evs0 & Hf & ->).
  destruct Hf; try congruence; cbn [fst snd]; unfold loads;
    rewrite !omap_app, ?button_silent by by_event; cbn; eauto.
Qed.

Lemma runs_after_hit inputs s l :
  resource_cache s = Some l →
  Forall (fun r => run_outcome r = Return tt ∧ run_store r = s
                   ∧ loads (run_events r) = [])
         (run_process inputs s).
Proof.
  intros Hc. induction inputs as [|inp rest IH]; [constructor|].
  cbn [run_process]. destruct (main_hit inp s l Hc) as (Ho & Hs & Hl).
  destruct (main inp s) as [[o s1] evs]. cbn [fst snd] in *. subst.
  by constructor.
Qed.

Lemma completed_after_hit inputs s l :
  resource_cache s = Some l →
  sum_list (completed_loads <$> run_process inputs s) = 0.
Proof.
  intros Hc. pose proof (runs_after_hit inputs s l Hc) as Hall.
  induction Hall as [|r runs (Ho & _ & Hl) _ IH]; [done|].
  cbn. unfold completed_loads at 1. by rewrite Ho, Hl, IH.
Qed.

Lemma completed_at_most_once inputs s :
  sum_list (completed_loads <$> run_process inputs s) ≤ 1.
Proof.
  revert s. induction inputs as [|inp rest IH]; intros s; [cbn; lia|].
  destruct (resource_cache s) as [l|] eqn:Hc.
  { rewrite (completed_after_hit _ _ _ Hc). lia. }
  cbn [run_process]. destruct (main_miss inp s Hc) as [Hl Hcache].
  destruct (main inp s) as [[[[]|e] s1] evs]; cbn [fst snd] in *.
  - destruct Hcache as [l Hc1]. rewrite fmap_cons. cbn [sum_list sum_list_with id].
    unfold completed_loads at 1. cbn [run_outcome run_events].
    rewrite Hl, (completed_after_hit _ _ _ Hc1). lia.
  - rewrite fmap_cons. cbn [sum_list sum_list_with id].
    unfold completed_loads at 1. cbn [run_outcome run_events]. apply IH.
Qed.

Lemma never_reloaded inputs s i j ri rj :
  run_process inputs s !! i = Some ri →
  run_process inputs s !! j = Some rj →
  i < j →
  run_outcome ri = Return tt →
  loads (run_events rj) = [] ∧ run_outcome rj = Return tt
  ∧ run_store rj = run_store ri.
Proof.
  revert s i j. induction inputs as [|inp rest IH]; intros s i j; [done|].
  cbn [run_process].
  destruct (main inp s) as [[o s1] evs] eqn:Hmain.
  destruct j as [|j]; [lia|]. destruct i as [|i]; cbn.
  - intros [= <-] Hj _ Ho. cbn in Ho. subst o.
    assert (is_Some (resource_cache s1)) as [l Hc1].
    { destruct (resource_cache s) as [l|] eqn:Hc.
      - destruct (main_hit inp s l Hc) as (_ & Hs & _).
        rewrite Hmain in Hs. cbn in Hs. subst. eauto.
      - destruct (main_miss inp s Hc) as [_ Hcache]. by rewrite Hmain in Hcache. }
    pose proof (runs_after_hit rest s1 l Hc1) as Hall.
    rewrite Forall_lookup in Hall. destruct (Hall j rj Hj) as (? & ? & ?).
    done.
  - intros Hi Hj Hlt. apply (IH s1 i j); [done|done|lia].
Qed.

(** The load step runs once in a run that finds the cache empty and not
    at all in a run that finds a translator. *)
Lemma loads_per_run inputs s i r :
  run_process inputs s !! i = Some r →
  length (loads (run_events r))
  = if cached s || existsb returned (take i (run_process inputs s))
    then 0 else 1.
Proof.
  revert s i. induction inputs as [|inp rest IH]; intros s i; [done|].
  cbn [run_process]. destruct (main inp s) as [[o s1] evs] eqn:Hmain.
  assert (cached s1 = cached s || returned (mkRun o s1 evs)) as Hcached.
  { unfold cached, returned. cbn [run_outcome].
    destruct (resource_cache s) as [l|] eqn:Hc.
    - destruct (main_hit inp s l Hc) as (_ & Hs & _).
      rewrite Hmain in Hs. cbn in Hs. subst s1. by rewrite Hc.
    - destruct (main_miss inp s Hc) as [_ Hcache]. rewrite Hmain in Hcache.
      cbn [fst snd] in Hcache. destruct o as [[]|e].
      + by destruct Hcache as [l ->].
      + by rewrite Hcache. }
  destruct i as [|i].
  - intros [= <-]. cbn [take existsb run_events]. rewrite orb_false_r.
    unfold cached. destruct (resource_cache s) as [l|] eqn:Hc.
    + destruct (main_hit inp s l Hc) as (_ & _ & Hl).
      rewrite Hmain in Hl. cbn [fst snd] in Hl. by rewrite Hl.
    + destruct (main_miss inp s Hc) as [Hl _]. by rewrite Hmain in Hl.
  - intros Hi. rewrite (IH s1 i Hi). cbn [take existsb].
    by rewrite Hcached, orb_assoc.
Qed.

(** C8, as the code has it. In a process, started with an empty cache,
    the translator is built on first use and memoised once a load has been
    carried out to the end: at most one load is completed; a run executes
    the load step once when no earlier run has obtained the translator, so
    the first run does, and so does every run after a load that raised;
    once a run has obtained the translator, no later run executes the load
    step again, however many follow: each finds the same store, hence the
    same translator object under the same handle. *)
Theorem load_once inputs :
  let runs := run_process inputs initial_store in
  sum_list (completed_loads <$> runs) ≤ 1
  ∧ (∀ i r, runs !! i = Some r →
            length (loads (run_events r))
            = if existsb returned (take i runs) then 0 else 1)
  ∧ (∀ i j ri rj,
       runs !! i = Some ri → runs !! j = Some rj → i < j →
       run_outcome ri = Return tt →
       loads (run_events rj) = [] ∧ run_outcome rj = Return tt
       ∧ run_store rj = run_store ri).
Proof.
  cbn zeta. split; [apply completed_at_most_once|]. split.
  - intros i r Hr. by rewrite (loads_per_run inputs initial_store i r Hr).
  - apply never_reloaded.
Qed.
End Properties.

(** ** Further properties of the translator and of the page *)

Section Further.
Context {Env Vocab Weights : Type} `{!Transformers Env Vocab Weights}.

Implicit Types (s : Store Vocab Weights) (self : nat) (text : string).
Implicit Types (max_length : Z).

Local Arguments button_events : simpl never.
Local Arguments translate : simpl never.

Ltac step :=
  first [ rewrite !bind_getattr | rewrite !bind_call | rewrite !bind_getitem
        | rewrite !bind_list_getitem | rewrite !bind_emit ].

Ltac each_event :=
  let ev := fresh "ev" in
  intros ev; destruct ev; try done;
  match goal with c : Container |- _ => destruct c end; done.

(** Building a translator when both loads return: the object gets a fresh
    address, the fixed model name and device, the loaded model, and the
    loaded tokenizer with its language tags set to English and Urdu and
    nothing else changed; the tokenizer is loaded before the model, both
    under the same name, and no error is shown. *)
Theorem constructor_configures env s tk m :
  MBartTokenizer_from_pretrained env "facebook/mbart-large-50-many-to-many-mmt"
    = Return tk →
  MBartForConditionalGeneration_from_pretrained env
    "facebook/mbart-large-50-many-to-many-mmt" = Return m →
  let r := EnglishToRomanUrduTranslator env s in
  r.1.1 = Return (length (heap s))
  ∧ heap s !! length (heap s) = None
  ∧ (∃ obj tk',
       heap r.1.2 !! length (heap s) = Some obj
       ∧ model_name obj = Some "facebook/mbart-large-50-many-to-many-mmt"
       ∧ device obj = Some "cpu"
       ∧ model obj = Some m
       ∧ tokenizer obj = Some tk'
       ∧ src_lang tk' = "en_XX" ∧ tgt_lang tk' = "ur_PK"
       ∧ vocab tk' = vocab tk ∧ lang_code_to_id tk' = lang_code_to_id tk)
  ∧ resource_cache r.1.2 = resource_cache s
  ∧ r.2 = [Call_load_model (length (heap s));
           Tokenizer_from_pretrained "facebook/mbart-large-50-many-to-many-mmt";
           Model_from_pretrained "facebook/mbart-large-50-many-to-many-mmt"].
Proof.
  intros Htk Hm. cbn zeta. rewrite construct_spec. cbn zeta.
  unfold the_model_name. rewrite Htk, Hm. cbn [fst snd heap resource_cache].
  split; [done|]. split; [by apply lookup_ge_None|]. split; [|done].
  eexists _, _. rewrite lookup_new. by repeat split.
Qed.

(** The model load is attempted only after the tokenizer load returned, and
    the language tags are assigned only after both returned: when the
    tokenizer load raises, no model load is made and the object is left
    without tokenizer and model; when the model load raises, the object
    keeps the tokenizer exactly as it was loaded and has no model. *)
Theorem load_stops_at_first_failure env s e :
  let name := "facebook/mbart-large-50-many-to-many-mmt" in
  let r := EnglishToRomanUrduTranslator env s in
  (MBartTokenizer_from_pretrained env name = Raise e →
   r.1.1 = Raise e ∧ model_loads r.2 = []
   ∧ heap r.1.2 !! length (heap s) ≫= tokenizer = None
   ∧ heap r.1.2 !! length (heap s) ≫= model = None)
  ∧ (∀ tk, MBartTokenizer_from_pretrained env name = Return tk →
           MBartForConditionalGeneration_from_pretrained env name = Raise e →
           r.1.1 = Raise e ∧ model_loads r.2 = [name]
           ∧ heap r.1.2 !! length (heap s) ≫= tokenizer = Some tk
           ∧ heap r.1.2 !! length (heap s) ≫= model = None).
Proof.
  cbn zeta. rewrite construct_spec. cbn zeta. unfold the_model_name. split.
  - intros ->. cbn [fst snd heap]. by rewrite lookup_new.
  - intros tk -> ->. cbn [fst snd heap]. by rewrite lookup_new.
Qed.

(** A tokenizer without an id for the Urdu marker: [translate] catches the
    [KeyError], shows its message, returns [None], and [generate] is never
    called. *)
Theorem translate_unknown_language self text max_length s tk m enc ids mask :
  heap s !! self ≫= tokenizer = Some tk →
  heap s !! self ≫= model = Some m →
  tokenizer_call tk text (mkTokenizerArgs "pt" true true max_length) = Return enc →
  enc !! "input_ids" = Some ids →
  enc !! "attention_mask" = Some mask →
  lang_code_to_id tk !! "ur_PK" = None →
  translate self text max_length s =
    (Return None, s,
     [Call_translate self text max_length;
      Tokenizer_call text (mkTokenizerArgs "pt" true true max_length);
      St_error "Translation error: 'ur_PK'"]).
Proof.
  intros Htk Hm Henc Hids Hmask Hbos. rewrite translate_unfold.
  unfold translate_try.
  step. rewrite Htk. step. unfold translate_args. rewrite Henc. cbn [fst snd].
  step. rewrite Hm. step. rewrite Hids. step. rewrite Hmask.
  step. rewrite Htk. step. by rewrite Hbos.
Qed.

(** No decoded candidate: when [batch_decode] returns the empty list,
    taking candidate 0 raises [IndexError]; [translate] catches it after
    the three library calls, shows its message and returns [None]. *)
Theorem translate_no_candidate self text max_length s tk m enc ids mask bos toks :
  heap s !! self ≫= tokenizer = Some tk →
  heap s !! self ≫= model = Some m →
  tokenizer_call tk text (mkTokenizerArgs "pt" true true max_length) = Return enc →
  enc !! "input_ids" = Some ids →
  enc !! "attention_mask" = Some mask →
  lang_code_to_id tk !! "ur_PK" = Some bos →
  model_generate m ids mask (mkGenerateArgs max_length 4 1 true bos) = Return toks →
  batch_decode tk toks true = Return [] →
  translate self text max_length s =
    (Return None, s,
     [Call_translate self text max_length;
      Tokenizer_call text (mkTokenizerArgs "pt" true true max_length);
      Model_generate ids mask (mkGenerateArgs max_length 4 1 true bos);
      Batch_decode toks true;
      St_error "Translation error: list index out of range"]).
Proof.
  intros Htk Hm Henc Hids Hmask Hbos Hgen Hdec. rewrite translate_unfold.
  unfold translate_try.
  step. rewrite Htk. step. unfold translate_args. rewrite Henc. cbn [fst snd].
  step. rewrite Hm. step. rewrite Hids. step. rewrite Hmask.
  step. rewrite Htk. step. rewrite Hbos. step. unfold generate_args.
  rewrite Hgen. cbn [fst snd]. step. rewrite Htk. step. by rewrite Hdec.
Qed.

(** [translate] shows an error exactly when it returns [None], and the
    error is that of the exception caught: when the try block raises [e],
    the call returns [None] and the one error shown is "Translation
    error: " followed by [str e]; when the try block returns, the call
    returns that value, a string, and shows no error. *)
Theorem translate_error_iff_none self text max_length s :
  match (translate_try self text max_length s).1.1 with
  | Raise e =>
      (translate self text max_length s).1.1 = Return None
      ∧ errors (translate self text max_length s).2
        = ["Translation error: " +:+ str e]
  | Return r =>
      ∃ t, r = Some t
           ∧ (translate self text max_length s).1.1 = Return (Some t)
           ∧ errors (translate self text max_length s).2 = []
  end.
Proof.
  rewrite translate_unfold.
  destruct (reads_library self text max_length s) as [_ Hev].
  assert (errors (translate_try self text max_length s).2 = []) as Hnil.
  { eapply omap_none; [done|]. by intros []. }
  destruct (translate_try self text max_length s) as [[[r|e] s1] evs] eqn:Htry;
    cbn [fst snd] in *.
  - destruct (translate_try_inv _ _ _ _ _ _ _ Htry)
      as (? & ? & ? & ? & ? & ? & ? & cand & ? & ? & ? & ? & ? & ? & ? & ? & ? & ->).
    exists cand. split; [done|]. split; [done|].
    unfold errors in *. cbn. by rewrite Hnil.
  - split; [done|]. unfold errors in *. cbn. by rewrite omap_app, Hnil.
Qed.

(** *** One run of the page *)

(** The two shapes of a run: the translator was obtained and the whole page
    was built around the events [evs0] of fetching it, or loading raised and
    the run ended there. *)
Lemma main_events inp s :
  (∃ l evs0,
     (main inp s).1.1 = Return tt
     ∧ resource_cache (main inp s).1.2 = Some l
     ∧ forallb of_loading evs0 = true ∧ errors evs0 = []
     ∧ (main inp s).2 =
         page_top ++ evs0 ++ page_controls
           ++ button_events inp l (main inp s).1.2 ++ page_bottom)
  ∨ (∃ e evs0,
       (main inp s).1.1 = Raise e
       ∧ resource_cache s = None ∧ load_fails (env inp) e
       ∧ forallb of_loading evs0 = true
       ∧ errors evs0 = ["Error loading model: " +:+ str e]
       ∧ (main inp s).2 = page_top ++ evs0).
Proof.
  destruct (main_fetch inp s) as (o & s1 & evs0 & Hf & ->).
  destruct Hf as [l Hc|tk m Hc Htk Hm|e Hc Htk|tk e Hc Htk Hm]; cbn [fst snd].
  - left. by exists l, [].
  - left.
    by exists (length (heap s)),
      [Call_load_model (length (heap s));
       Tokenizer_from_pretrained the_model_name;
       Model_from_pretrained the_model_name].
  - right.
    exists e, [Call_load_model (length (heap s));
               Tokenizer_from_pretrained the_model_name;
               St_error ("Error loading model: " +:+ str e)].
    repeat split; try done. by left.
  - right.
    exists e, [Call_load_model (length (heap s));
               Tokenizer_from_pretrained the_model_name;
               Model_from_pretrained the_model_name;
               St_error ("Error loading model: " +:+ str e)].
    repeat split; try done. right. eauto.
Qed.

Lemma loading_silent {A} (f : Event → option A) evs0 :
  forallb of_loading evs0 = true →
  (∀ ev, of_loading ev = true → f ev = None) → omap f evs0 = [].
Proof. intros. by eapply omap_none. Qed.

Lemma button_idle inp l s : button_clicked inp = false → button_events inp l s = [].
Proof. intros H. unfold button_events. by rewrite H. Qed.

Lemma errors_translate_le self text max_length s :
  length (errors (translate self text max_length s).2) ≤ 1.
Proof.
  rewrite translate_unfold.
  destruct (reads_library self text max_length s) as [_ Hev].
  assert (errors (translate_try self text max_length s).2 = []) as Hnil.
  { eapply omap_none; [done|]. by intros []. }
  destruct (translate_try self text max_length s) as [[[r|e] s1] evs];
    cbn [fst snd] in *; unfold errors in *; cbn.
  - rewrite Hnil. cbn. lia.
  - rewrite omap_app, Hnil. cbn. lia.
Qed.

Lemma errors_button_le inp l s : length (errors (button_events inp l s)) ≤ 1.
Proof.
  unfold button_events.
  destruct (button_clicked inp), (truthy (text_area_value inp)); cbn; try lia.
  unfold errors. rewrite !omap_app. fold errors. rewrite !length_app.
  pose proof (errors_translate_le l (text_area_value inp)
                (slider_value (slider_position inp)) s).
  destruct (translate _ _ _ _).1.1 as [[t|]|]; [destruct (truthy t)|..];
    unfold errors in *; cbn; lia.
Qed.

Lemma generate_calls_button inp l s :
  button_clicked inp = false ∨ text_area_value inp = "" →
  generate_calls (button_events inp l s) = [].
Proof.
  unfold button_events. intros [->| ->]; [done|]. by destruct (button_clicked inp).
Qed.

(** A run is ended by an exception only when it found no cached translator
    and loading raised; a failed translation never ends the run. *)
Theorem main_raises_only_on_load_failure inp s :
  (main inp s).1.1 = Return tt
  ∨ ∃ e, (main inp s).1.1 = Raise e
         ∧ resource_cache s = None
         ∧ (MBartTokenizer_from_pretrained (env inp)
              "facebook/mbart-large-50-many-to-many-mmt" = Raise e
            ∨ MBartForConditionalGeneration_from_pretrained (env inp)
                "facebook/mbart-large-50-many-to-many-mmt" = Raise e).
Proof.
  destruct (main_events inp s)
    as [(l & evs0 & Ho & _)|(e & evs0 & Ho & Hc & Hfail & _)]; [by left|].
  right. exists e. split; [done|]. split; [done|].
  destruct Hfail as [?|(tk & _ & ?)]; [by left|by right].
Qed.

(** A run that was not triggered by the button (the page was opened, the
    text edited or the slider moved) translates nothing: it calls neither
    [translate] nor [generate] and shows no warning, no output and no
    success message, whatever the text area holds. *)
Theorem idle_run_translates_nothing inp s :
  button_clicked inp = false →
  translate_calls (main inp s).2 = []
  ∧ generate_calls (main inp s).2 = []
  ∧ warnings (main inp s).2 = []
  ∧ rendered (main inp s).2 = []
  ∧ successes (main inp s).2 = [].
Proof.
  intros Hidle.
  destruct (main_events inp s)
    as [(l & evs0 & _ & _ & Hev & _ & ->)|(e & evs0 & _ & _ & _ & Hev & _ & ->)];
    unfold translate_calls, generate_calls, warnings, rendered, successes;
    rewrite !omap_app, ?button_idle, !(loading_silent _ evs0 Hev) by
      (done || by intros []); by cbn.
Qed.

(** The page opens with its configuration in every run; a run that obtained
    the translator renders the slider, the text area and the button once
    each, in this order, and ends with the information section, also after
    a failed translation; a run ended by a load failure renders no input
    widget at all. *)
Theorem page_layout inp s :
  head (main inp s).2
    = Some (St_set_page_config "English to Roman Urdu Translator" "🔄" "wide")
  ∧ match (main inp s).1.1 with
    | Return _ =>
        widgets (main inp s).2 = [Slider; TextArea; Button]
        ∧ last (main inp s).2 = Some (St_markdown about false)
    | Raise _ => widgets (main inp s).2 = []
    end.
Proof.
  destruct (main_events inp s)
    as [(l & evs0 & -> & _ & Hev & _ & ->)|(e & evs0 & -> & _ & _ & Hev & _ & ->)].
  - split; [done|]. split.
    + unfold widgets. rewrite !omap_app, (loading_silent _ evs0 Hev),
        button_silent by each_event. by cbn.
    + by rewrite !app_assoc, last_app.
  - split; [done|]. unfold widgets.
    rewrite !omap_app, (loading_silent _ evs0 Hev) by each_event. by cbn.
Qed.

(** *** Objects *)

(** A run never changes or removes an existing object: the heap it leaves
    extends the heap it found, by one new object exactly when the cache was
    empty and by none otherwise. *)
Theorem main_extends_heap inp s :
  heap s `prefix_of` heap (main inp s).1.2
  ∧ length (heap (main inp s).1.2)
    = match resource_cache s with
      | Some _ => length (heap s)
      | None => S (length (heap s))
      end.
Proof.
  destruct (main_fetch inp s) as (o & s1 & evs0 & Hf & ->).
  destruct Hf as [l Hc|tk m Hc Htk Hm|e Hc Htk|tk e Hc Htk Hm];
    cbn [fst snd heap]; rewrite Hc, ?length_app; cbn [length];
    (split; [first [reflexivity | by apply prefix_app_r]|lia]).
Qed.

Lemma main_initialised inp s : initialised s → initialised (main inp s).1.2.
Proof.
  intros Hs. destruct (main_fetch inp s) as (o & s1 & evs0 & Hf & ->).
  destruct Hf as [l Hc|tk m Hc Htk Hm|e Hc Htk|tk e Hc Htk Hm];
    cbn [fst snd]; [done| |done|done].
  intros l [= <-]. cbn [heap]. exists tk, m. apply lookup_new.
Qed.

Lemma runs_initialised inputs s :
  initialised s →
  Forall (fun r => initialised (run_store r)) (run_process inputs s).
Proof.
  revert s. induction inputs as [|inp rest IH]; intros s Hs; [constructor|].
  cbn [run_process]. pose proof (main_initialised inp s Hs) as Hs1.
  destruct (main inp s) as [[o s1] evs]. constructor; [done|]. by apply IH.
Qed.

(** Whatever the runs of a process were, after each of them the handle in
    the cache, if there is one, is the address of a completely built
    translator: it has the model name, the device, a model, and a tokenizer
    whose language tags are English and Urdu. *)
Theorem cached_translator_is_complete inputs :
  Forall
    (fun r =>
       ∀ l, resource_cache (run_store r) = Some l →
            ∃ obj tk m,
              heap (run_store r) !! l = Some obj
              ∧ model_name obj = Some "facebook/mbart-large-50-many-to-many-mmt"
              ∧ device obj = Some "cpu"
              ∧ model obj = Some m
              ∧ tokenizer obj = Some tk
              ∧ src_lang tk = "en_XX" ∧ tgt_lang tk = "ur_PK")
    (run_process inputs initial_store).
Proof.
  eapply Forall_impl; [apply runs_initialised; by intros l|].
  intros r Hr l Hc. destruct (Hr l Hc) as (tk & m & Hl).
  eexists _, _, m. split; [exact Hl|]. by repeat split.
Qed.

(** *** Calls of translate *)

Lemma translate_calls_main inp s :
  translate_calls (main inp s).2 =
    match (main inp s).1.1, resource_cache (main inp s).1.2 with
    | Return _, Some l =>
        if button_clicked inp && truthy (text_area_value inp)
        then [(l, text_area_value inp, slider_value (slider_position inp))]
        else []
    | _, _ => []
    end.
Proof.
  destruct (main_events inp s)
    as [(l & evs0 & Ho & Hc & Hev & _ & Hmain)|(e & evs0 & Ho & _ & _ & Hev & _ & Hmain)];
    rewrite Hmain, Ho, ?Hc; unfold translate_calls;
    rewrite !omap_app, (loading_silent _ evs0 Hev) by (by intros []);
    fold translate_calls; rewrite ?translate_calls_button; cbn;
    by rewrite ?app_nil_r.
Qed.

Lemma calls_after_hit inputs s l :
  resource_cache s = Some l →
  Forall (fun r => ∀ c, c ∈ translate_calls (run_events r) → c.1.1 = l)
         (run_process inputs s).
Proof.
  intros Hc. induction inputs as [|inp rest IH]; [constructor|].
  cbn [run_process]. destruct (main_hit inp s l Hc) as (Ho & Hs & _).
  pose proof (translate_calls_main inp s) as Hcalls.
  destruct (main inp s) as [[o s1] evs]. cbn [fst snd] in *. subst o s1.
  rewrite Hc in Hcalls. constructor; [|done]. cbn [run_events].
  rewrite Hcalls. intros c.
  destruct (button_clicked inp && truthy (text_area_value inp));
    [by intros ->%list_elem_of_singleton | by intros ?%elem_of_nil].
Qed.

Lemma calls_one_target inputs s :
  ∃ l, Forall (fun r => ∀ c, c ∈ translate_calls (run_events r) → c.1.1 = l)
              (run_process inputs s).
Proof.
  revert s. induction inputs as [|inp rest IH]; intros s; [by exists 0|].
  destruct (resource_cache s) as [l|] eqn:Hc.
  { exists l. by apply calls_after_hit. }
  cbn [run_process]. pose proof (translate_calls_main inp s) as Hcalls.
  destruct (main inp s) as [[o s1] evs]. cbn [fst snd] in *.
  destruct o as [[]|e], (resource_cache s1) as [l1|] eqn:Hc1.
  - exists l1. constructor; [|by apply calls_after_hit].
    cbn [run_events]. rewrite Hcalls. intros c.
    destruct (button_clicked inp && truthy (text_area_value inp));
      [by intros ->%list_elem_of_singleton | by intros ?%elem_of_nil].
  - destruct (IH s1) as [l Hl]. exists l. constructor; [|done].
    cbn [run_events]. rewrite Hcalls. by intros c ?%elem_of_nil.
  - destruct (IH s1) as [l Hl]. exists l. constructor; [|done].
    cbn [run_events]. rewrite Hcalls. by intros c ?%elem_of_nil.
  - destruct (IH s1) as [l Hl]. exists l. constructor; [|done].
    cbn [run_events]. rewrite Hcalls. by intros c ?%elem_of_nil.
Qed.

(** One translator per process: all calls of [translate] that the runs of
    a process make, in whatever run, are made on the same object. *)
Theorem one_translator_per_process inputs r1 r2 c1 c2 :
  r1 ∈ run_process inputs initial_store →
  r2 ∈ run_process inputs initial_store →
  c1 ∈ translate_calls (run_events r1) →
  c2 ∈ translate_calls (run_events r2) →
  c1.1.1 = c2.1.1.
Proof.
  intros Hr1 Hr2 Hc1 Hc2.
  destruct (calls_one_target inputs initial_store) as [l Hl].
  rewrite Forall_forall in Hl.
  by rewrite (Hl r1 Hr1 c1 Hc1), (Hl r2 Hr2 c2 Hc2).
Qed.

(** An activation has exactly one effect: a run that obtained the
    translator makes one call of [translate] or shows one warning when the
    button was clicked, never both, and neither when it was not. *)
Theorem one_call_or_one_warning inp s :
  length (translate_calls (main inp s).2) + length (warnings (main inp s).2) ≤ 1
  ∧ ((main inp s).1.1 = Return tt →
     length (translate_calls (main inp s).2) + length (warnings (main inp s).2)
     = if button_clicked inp then 1 else 0).
Proof.
  destruct (main_events inp s)
    as [(l & evs0 & Ho & _ & Hev & _ & ->)|(e & evs0 & Ho & _ & _ & Hev & _ & ->)];
    rewrite ?Ho; unfold translate_calls, warnings;
    rewrite !omap_app, !(loading_silent _ evs0 Hev) by (by intros []);
    fold translate_calls; fold warnings;
    rewrite ?translate_calls_button, ?warnings_button; cbn.
  - destruct (button_clicked inp), (truthy (text_area_value inp)); cbn;
      (split; [lia|done]).
  - split; [lia|done].
Qed.

(** The success message and the output panel go together: in every run the
    number of success messages equals the number of outputs rendered, it is
    at most one, and what is rendered is the translation box around a
    non-empty string. *)
Theorem success_with_output inp s :
  length (successes (main inp s).2) = length (rendered (main inp s).2)
  ∧ length (rendered (main inp s).2) ≤ 1
  ∧ ∀ body, body ∈ rendered (main inp s).2 →
            ∃ t, t ≠ "" ∧ body = translation_box t.
Proof.
  assert (∀ inp' l s',
    length (successes (button_events inp' l s'))
      = length (rendered (button_events inp' l s'))
    ∧ length (rendered (button_events inp' l s')) ≤ 1
    ∧ ∀ body, body ∈ rendered (button_events inp' l s') →
              ∃ t, t ≠ "" ∧ body = translation_box t) as Hbutton.
  { intros inp' l s'. pose proof (shown_button inp' l s') as Hshown.
    destruct (button_clicked inp' && truthy (text_area_value inp'));
      [|injection Hshown as -> ->; cbn; split; [done|split; [lia|]];
        by intros body ?%elem_of_nil].
    destruct (translate _ _ _ _).1.1 as [[t|]|]; cbn in Hshown;
      [destruct (truthy t) eqn:Ht|..]; injection Hshown as -> ->; cbn;
      (split; [done|split; [lia|]]); try by intros body ?%elem_of_nil.
    intros body ->%list_elem_of_singleton. exists t. split; [|done].
    by destruct t. }
  destruct (main_events inp s)
    as [(l & evs0 & _ & _ & Hev & _ & ->)|(e & evs0 & _ & _ & _ & Hev & _ & ->)];
    unfold successes, rendered;
    rewrite !omap_app, !(loading_silent _ evs0 Hev) by (by intros []);
    fold successes; fold rendered; cbn; rewrite ?app_nil_r.
  - apply Hbutton.
  - split; [done|]. split; [lia|]. by intros body ?%elem_of_nil.
Qed.

(** A run shows at most one error: the load error that ended it, or the
    error of the one translation it attempted. *)
Theorem at_most_one_error inp s : length (errors (main inp s).2) ≤ 1.
Proof.
  destruct (main_events inp s)
    as [(l & evs0 & _ & _ & _ & Herr & ->)|(e & evs0 & _ & _ & _ & _ & Herr & ->)];
    unfold errors in *; rewrite !omap_app, Herr; cbn; rewrite ?app_nil_r.
  - apply errors_button_le.
  - lia.
Qed.

End Further.

(** ** The properties on the small library *)

Import Toy.

Lemma toy_generate_capped : generate_respects_max_length.
Proof.
  intros w ids mask args toks. cbn. unfold generate.
  destruct (gen_max_length args <? 1)%Z eqn:Hcap; [done|].
  apply Z.ltb_ge in Hcap.
  destruct ids as [|[|id row] ids]; [done|done|].
  intros [= <-]. constructor; [|constructor].
  rewrite length_take. lia.
Qed.

(** The first run of a process builds the store [loaded]. *)
Example first_run_loads :
  (main (mkRunInput (Serving Echo) None "" false) initial_store).1.2 = loaded Echo.
Proof. vm_compute. reflexivity. Qed.

Lemma translate_pipeline_witness :
  translate 0 "hi" 128 (loaded Echo) =
    (Return (Some "hi"), loaded Echo,
     [Call_translate 0 "hi" 128;
      Tokenizer_call "hi" (mkTokenizerArgs "pt" true true 128);
      Model_generate [[104; 105]]%Z [[1; 1]]%Z (mkGenerateArgs 128 4 1 true 250047);
      Batch_decode [[250047; 104; 105]]%Z true]).
Proof.
  apply (proj2 (translate_pipeline 0 "hi" 128 (loaded Echo))
           (mkTokenizer tt "en_XX" "ur_PK" lang_codes) Echo
           {[ "input_ids" := [[104; 105]]%Z; "attention_mask" := [[1; 1]]%Z ]}
           [[104; 105]]%Z [[1; 1]]%Z 250047%Z [[250047; 104; 105]]%Z "hi" []);
    vm_compute; reflexivity.
Defined.

Lemma translate_catches_witness :
  translate 0 "" 128 (loaded Echo) =
    (Return None, loaded Echo,
     [Call_translate 0 "" 128;
      Tokenizer_call "" (mkTokenizerArgs "pt" true true 128);
      Model_generate [[]] [[]] (mkGenerateArgs 128 4 1 true 250047);
      St_error "Translation error: empty input_ids"]).
Proof.
  assert (translate_try 0 "" 128 (loaded Echo) =
            (Raise (ValueError "empty input_ids"), loaded Echo,
             [Tokenizer_call "" (mkTokenizerArgs "pt" true true 128);
              Model_generate [[]] [[]] (mkGenerateArgs 128 4 1 true 250047)]))
    as Htry by (vm_compute; reflexivity).
  exact (proj1 (translate_catches _ _ _ _ _ _ _ Htry)).
Defined.

Lemma translate_deterministic_witness :
  let tk := mkTokenizer tt "en_XX" "en_XX" lang_codes in
  let other := mkStore [empty_object; loaded_object tk Echo] None in
  (translate 0 "hi" 128 (loaded Echo)).1.1 = (translate 1 "hi" 128 other).1.1
  ∧ tail (translate 0 "hi" 128 (loaded Echo)).2
    = tail (translate 1 "hi" 128 other).2.
Proof.
  cbn zeta. apply (proj1 (translate_deterministic "hi" 128)); reflexivity.
Defined.

Lemma translate_token_bound_witness :
  ∃ (tk : Tokenizer unit) ids mask bos toks rest,
    (translate 0 "hi" 128 (loaded Echo)).2 =
      [Call_translate 0 "hi" 128;
       Tokenizer_call "hi" (mkTokenizerArgs "pt" true true 128);
       Model_generate ids mask (mkGenerateArgs 128 4 1 true bos);
       Batch_decode toks true]
    ∧ batch_decode tk toks true = Return ("hi" :: rest)
    ∧ Forall (fun row : list Z => (Z.of_nat (length row) ≤ 128)%Z) toks.
Proof.
  apply (translate_token_bound 0 "hi" 128 (loaded Echo) "hi" toy_generate_capped).
  vm_compute. reflexivity.
Defined.


Lemma empty_input_warns_witness :
  let inp := mkRunInput (Serving Echo) None "" true in
  translate_calls (main inp initial_store).2 = []
  ∧ warnings (main inp initial_store).2
    = ["⚠️ Please enter some text to translate"].
Proof.
  cbn zeta.
  destruct (proj2 (empty_input_warns (mkRunInput (Serving Echo) None "" true)
                     initial_store) eq_refl eq_refl) as [Hcalls Hwarn].
  split; [exact Hcalls|]. apply Hwarn. vm_compute. reflexivity.
Defined.

Lemma activation_renders_witness :
  let inp := mkRunInput (Serving Echo) None "hi" true in
  ∃ l max_length,
    resource_cache (main inp initial_store).1.2 = Some l
    ∧ translate_calls (main inp initial_store).2 = [(l, "hi", max_length)]
    ∧ match (translate l "hi" max_length (main inp initial_store).1.2).1.1 with
      | Return (Some t) =>
          if truthy t
          then rendered (main inp initial_store).2 = [translation_box t]
               ∧ successes (main inp initial_store).2
                 = ["Translation completed! ✨"]
          else rendered (main inp initial_store).2 = []
               ∧ successes (main inp initial_store).2 = []
      | _ => rendered (main inp initial_store).2 = []
             ∧ successes (main inp initial_store).2 = []
      end.
Proof.
  cbn zeta.
  apply (activation_renders (mkRunInput (Serving Echo) None "hi" true)
           initial_store eq_refl).
  - discriminate.
  - vm_compute. reflexivity.
Defined.

Lemma load_failure_reraised_witness :
  let inp := mkRunInput Offline None "hi" true in
  (main inp initial_store).1.1 = Raise OSError
  ∧ resource_cache (main inp initial_store).1.2 = None
  ∧ last (main inp initial_store).2
    = Some (St_error ("Error loading model: " +:+ str OSError))
  ∧ translate_calls (main inp initial_store).2 = []
  ∧ generate_calls (main inp initial_store).2 = []
  ∧ ∀ text max_length,
      (translate 0 text max_length (main inp initial_store).1.2).1.1
        = Return None
      ∧ generate_calls
          (translate 0 text max_length (main inp initial_store).1.2).2 = [].
Proof.
  cbn zeta.
  apply (proj1 load_failure_reraised (mkRunInput Offline None "hi" true)
           initial_store OSError eq_refl).
  left. reflexivity.
Defined.

Lemma load_once_witness :
  let runs :=
    run_process [mkRunInput Offline None "hi" true;
                 mkRunInput (Serving Echo) None "hi" true;
                 mkRunInput (Serving Echo) None "salam" true] initial_store in
  sum_list (completed_loads <$> runs) ≤ 1
  ∧ ∃ ri rj, runs !! 1 = Some ri ∧ runs !! 2 = Some rj
             ∧ length (loads (run_events ri)) = 1
             ∧ loads (run_events rj) = [] ∧ run_store rj = run_store ri.
Proof.
  intros runs.
  destruct (load_once [mkRunInput Offline None "hi" true;
                       mkRunInput (Serving Echo) None "hi" true;
                       mkRunInput (Serving Echo) None "salam" true])
    as (Hsum & Hcount & Hlater).
  split; [exact Hsum|].
  assert (∃ ri, runs !! 1 = Some ri ∧ run_outcome ri = Return tt)
    as (ri & Hi & Ho) by (eexists; split; vm_compute; reflexivity).
  assert (∃ rj, runs !! 2 = Some rj) as (rj & Hj)
    by (eexists; vm_compute; reflexivity).
  exists ri, rj.
  destruct (Hlater 1 2 ri rj Hi Hj ltac:(lia) Ho) as (Hloads & _ & Hstore).
  split; [exact Hi|]. split; [exact Hj|].
  split; [|split; [exact Hloads|exact Hstore]].
  rewrite (Hcount 1 ri Hi). vm_compute. reflexivity.
Defined.

(** *** Where the code departs from the specification *)

(** C4, as stated, fails: a text area holding one space is blank, yet the
    activation calls [translate] with it and shows no warning. *)
Lemma blank_input_is_translated :
  let inp := mkRunInput (Serving Echo) None " " true in
  blank (text_area_value inp) = true
  ∧ button_clicked inp = true
  ∧ translate_calls (main inp initial_store).2 = [(0, " ", 128%Z)]
  ∧ warnings (main inp initial_store).2 = [].
Proof. vm_compute. done. Qed.

(** C5, as stated, fails: after a run in which loading raised, a later run
    of the same process loads the model, reaches the generation step and
    renders a translation. *)
Lemma load_is_retried :
  let runs :=
    run_process [mkRunInput Offline None "hi" true;
                 mkRunInput (Serving Echo) None "hi" true] initial_store in
  run_outcome <$> runs = [Raise OSError; Return tt]
  ∧ (errors ∘ run_events) <$> runs
    = [["Error loading model: cannot reach the model hub"]; []]
  ∧ (generate_calls ∘ run_events) <$> runs
    = [[]; [mkGenerateArgs 128 4 1 true 250047]]
  ∧ (rendered ∘ run_events) <$> runs = [[]; [translation_box "hi"]].
Proof. vm_compute. done. Qed.

(** C8, as stated, fails: after a run in which the tokenizer was loaded
    and the model load raised, the next run executes the load step again,
    on a new object, and loads the tokenizer a second time. *)
Lemma load_step_is_repeated :
  let runs :=
    run_process (Transformers0:=Flaky.lib)
      [mkRunInput false None "hi" true; mkRunInput true None "hi" true]
      initial_store in
  run_outcome <$> runs = [Raise Flaky.OSError; Return tt]
  ∧ (loads ∘ run_events) <$> runs = [[0]; [1]]
  ∧ (model_loads ∘ run_events) <$> runs
    = [["facebook/mbart-large-50-many-to-many-mmt"];
       ["facebook/mbart-large-50-many-to-many-mmt"]]
  ∧ (∀ has_weights,
       MBartTokenizer_from_pretrained (Transformers:=Flaky.lib) has_weights
         "facebook/mbart-large-50-many-to-many-mmt"
       = Return (mkTokenizer tt "en_XX" "en_XX" lang_codes)).
Proof. vm_compute. repeat split; done. Qed.

(** C6, as stated, fails: the model [Silent] generates the forced first
    token only, [translate] returns the empty string, a string and not
    [None], and the front end renders nothing and shows no success
    message. *)
Lemma empty_translation_is_not_rendered :
  let inp := mkRunInput (Serving Silent) None "hi" true in
  let r := main inp initial_store in
  button_clicked inp = true
  ∧ text_area_value inp ≠ ""
  ∧ r.1.1 = Return tt
  ∧ translate_calls r.2 = [(0, "hi", 128%Z)]
  ∧ (translate 0 "hi" 128 r.1.2).1.1 = Return (Some "")
  ∧ rendered r.2 = []
  ∧ successes r.2 = [].
Proof. vm_compute. repeat split; done. Qed.

(** *** Further properties on the small libraries *)

Lemma constructor_configures_witness :
  let r := EnglishToRomanUrduTranslator (Serving Echo) initial_store in
  r.1.1 = Return 0
  ∧ (∃ obj tk',
       heap r.1.2 !! 0 = Some obj
       ∧ model obj = Some Echo
       ∧ tokenizer obj = Some tk'
       ∧ src_lang tk' = "en_XX" ∧ tgt_lang tk' = "ur_PK"
       ∧ lang_code_to_id tk' = lang_codes).
Proof.
  cbn zeta.
  destruct (constructor_configures (Transformers0:=Toy.lib)
              (Serving Echo) initial_store
              (mkTokenizer tt "en_XX" "en_XX" lang_codes) Echo eq_refl eq_refl)
    as (Hret & _ & (obj & tk' & Hobj & _ & _ & Hm & Htk & Hsrc & Htgt & _ & Hids)
        & _ & _).
  split; [exact Hret|]. exists obj, tk'. by repeat split.
Defined.

Lemma load_stops_at_first_failure_witness :
  let r := EnglishToRomanUrduTranslator Offline initial_store in
  r.1.1 = Raise OSError ∧ model_loads r.2 = []
  ∧ heap r.1.2 !! 0 ≫= tokenizer = None
  ∧ heap r.1.2 !! 0 ≫= model = None.
Proof.
  cbn zeta.
  exact (proj1 (load_stops_at_first_failure (Transformers0:=Toy.lib)
                  Offline initial_store OSError)
           eq_refl).
Defined.

Lemma translate_unknown_language_witness :
  translate 0 "hi" 128 without_urdu =
    (Return None, without_urdu,
     [Call_translate 0 "hi" 128;
      Tokenizer_call "hi" (mkTokenizerArgs "pt" true true 128);
      St_error "Translation error: 'ur_PK'"]).
Proof.
  apply (translate_unknown_language 0 "hi" 128 without_urdu
           (mkTokenizer tt "en_XX" "ur_PK" {[ "en_XX" := 250004%Z ]}) Echo
           {[ "input_ids" := [[104; 105]]%Z; "attention_mask" := [[1; 1]]%Z ]}
           [[104; 105]]%Z [[1; 1]]%Z);
    vm_compute; reflexivity.
Defined.

Lemma translate_no_candidate_witness :
  translate (Transformers0:=Mute.lib) 0 "hi" 128 Mute.loaded =
    (Return None, Mute.loaded,
     [Call_translate 0 "hi" 128;
      Tokenizer_call "hi" (mkTokenizerArgs "pt" true true 128);
      Model_generate [[104; 105]]%Z [[1; 1]]%Z (mkGenerateArgs 128 4 1 true 250047);
      Batch_decode [] true;
      St_error "Translation error: list index out of range"]).
Proof.
  apply (translate_no_candidate (Transformers0:=Mute.lib) 0 "hi" 128 Mute.loaded
           (mkTokenizer tt "en_XX" "ur_PK" lang_codes) tt
           {[ "input_ids" := [[104; 105]]%Z; "attention_mask" := [[1; 1]]%Z ]}
           [[104; 105]]%Z [[1; 1]]%Z 250047%Z []);
    vm_compute; reflexivity.
Defined.

Lemma idle_run_translates_nothing_witness :
  let inp := mkRunInput (Serving Echo) (Some 30) "hi" false in
  translate_calls (main inp initial_store).2 = []
  ∧ generate_calls (main inp initial_store).2 = []
  ∧ warnings (main inp initial_store).2 = []
  ∧ rendered (main inp initial_store).2 = []
  ∧ successes (main inp initial_store).2 = [].
Proof.
  cbn zeta.
  exact (idle_run_translates_nothing (Transformers0:=Toy.lib)
           (mkRunInput (Serving Echo) (Some 30) "hi" false) initial_store eq_refl).
Defined.

Lemma cached_translator_is_complete_witness :
  let runs :=
    run_process [mkRunInput Offline None "hi" true;
                 mkRunInput (Serving Echo) None "hi" true] initial_store in
  ∃ r obj tk,
    runs !! 1 = Some r
    ∧ resource_cache (run_store r) = Some 1
    ∧ heap (run_store r) !! 1 = Some obj
    ∧ tokenizer obj = Some tk
    ∧ src_lang tk = "en_XX" ∧ tgt_lang tk = "ur_PK".
Proof.
  intros runs.
  assert (∃ r, runs !! 1 = Some r ∧ resource_cache (run_store r) = Some 1)
    as (r & Hr & Hc) by (eexists; split; vm_compute; reflexivity).
  pose proof (cached_translator_is_complete
                [mkRunInput Offline None "hi" true;
                 mkRunInput (Serving Echo) None "hi" true]) as Hall.
  rewrite Forall_lookup in Hall.
  destruct (Hall 1 r Hr 1 Hc) as (obj & tk & m & Hobj & _ & _ & _ & Htk & Hsrc & Htgt).
  by exists r, obj, tk.
Defined.

Lemma one_translator_per_process_witness :
  let runs :=
    run_process [mkRunInput Offline None "hi" true;
                 mkRunInput (Serving Echo) None "hi" true;
                 mkRunInput (Serving Echo) (Some 0) "salam" true] initial_store in
  ∃ r1 r2 c1 c2,
    runs !! 1 = Some r1 ∧ runs !! 2 = Some r2
    ∧ translate_calls (run_events r1) = [c1]
    ∧ translate_calls (run_events r2) = [c2]
    ∧ c1.1.2 = "hi" ∧ c2.1.2 = "salam"
    ∧ c1.1.1 = c2.1.1.
Proof.
  intros runs.
  assert (∃ r1 c1, runs !! 1 = Some r1
                   ∧ translate_calls (run_events r1) = [c1] ∧ c1.1.2 = "hi")
    as (r1 & c1 & Hr1 & Hc1 & Ht1)
    by (eexists _, _; repeat split; vm_compute; reflexivity).
  assert (∃ r2 c2, runs !! 2 = Some r2
                   ∧ translate_calls (run_events r2) = [c2] ∧ c2.1.2 = "salam")
    as (r2 & c2 & Hr2 & Hc2 & Ht2)
    by (eexists _, _; repeat split; vm_compute; reflexivity).
  exists r1, r2, c1, c2. do 6 (split; [assumption|]).
  apply (one_translator_per_process
           [mkRunInput Offline None "hi" true;
            mkRunInput (Serving Echo) None "hi" true;
            mkRunInput (Serving Echo) (Some 0) "salam" true] r1 r2 c1 c2).
  - exact (list_elem_of_lookup_2 _ _ _ Hr1).
  - exact (list_elem_of_lookup_2 _ _ _ Hr2).
  - rewrite Hc1. apply list_elem_of_here.
  - rewrite Hc2. apply list_elem_of_here.
Defined.

Lemma one_call_or_one_warning_witness :
  let inp := mkRunInput (Serving Echo) None "" true in
  length (translate_calls (main inp initial_store).2)
  + length (warnings (main inp initial_store).2) = 1.
Proof.
  cbn zeta.
  apply (proj2 (one_call_or_one_warning
                  (mkRunInput (Serving Echo) None "" true) initial_store)).
  vm_compute. reflexivity.
Defined.

Lemma success_with_output_witness :
  let inp := mkRunInput (Serving Echo) None "hi" true in
  translation_box "hi" ∈ rendered (main inp initial_store).2
  ∧ ∃ t, t ≠ "" ∧ translation_box "hi" = translation_box t.
Proof.
  cbn zeta.
  assert (translation_box "hi"
            ∈ rendered (main (mkRunInput (Serving Echo) None "hi" true)
                             initial_store).2) as Hin.
  { replace (rendered _) with [translation_box "hi"] by (vm_compute; reflexivity).
    apply list_elem_of_here. }
  split; [exact Hin|].
  exact (proj2 (proj2 (success_with_output _ initial_store)) _ Hin).
Defined.
